(** * MC protocol (3E frame) client: connection lifecycle and response checks

    A shallow embedding of [mcp/client_alive.go].  The file holds two
    variants of the type [client3EAlive]: one that keeps a connection alive
    and redials by itself (module [Persistent]) and one whose connection is
    opened and closed by the caller (module [Explicit]).

    The client talks to the operating system through [net.Conn]; the model
    records every call made on the network in a trace and lets the network
    answer each call as a function of the calls made so far.  Go panics
    (nil dereference, slice bounds, [make] length out of range) are a
    separate outcome of every operation. *)

From Stdlib Require Import ZArith List String Ascii Bool Lia PeanoNat.
From Stdlib Require Import Strings.Byte.
Import ListNotations.

Local Open Scope Z_scope.

(* ================================================================== *)
(** ** Machine integers *)

(** Go's [int64]: two's complement, arithmetic wraps around silently. *)
Definition int64_min : Z := - 2 ^ 63.
Definition int64_max : Z := 2 ^ 63 - 1.

Definition wrap64 (z : Z) : Z := (z + 2 ^ 63) mod 2 ^ 64 - 2 ^ 63.

Definition add64 (a b : Z) : Z := wrap64 (a + b).
Definition mul64 (a b : Z) : Z := wrap64 (a * b).

Definition is_int64 (z : Z) : Prop := int64_min <= z <= int64_max.

(* ================================================================== *)
(** ** Errors and panics *)

(** The error values the client can hand back: the two errors of
    [encoding/hex], the text errors made with [errors.New], and the errors
    of package [net], which are opaque here apart from the one a closed
    connection reports. *)
Inductive error : Type :=
| ErrLength
| InvalidByteError (b : ascii)
| errorString (s : string)
| ErrNetClosing
| OpError (code : nat).

(** A Go result pair [(v, err)] in which exactly one side is set. *)
Inductive result (A : Type) : Type :=
| OK (a : A)
| Err (e : error).
Arguments OK {A} a.
Arguments Err {A} e.

Inductive panic : Type :=
| NilDereference
| MakeSliceLen
| SliceBounds
| MutexMisuse.

(** What running a piece of code gives: a value or a panic. *)
Inductive res (A : Type) : Type :=
| Val (a : A)
| Panic (p : panic).
Arguments Val {A} a.
Arguments Panic {A} p.

(* ================================================================== *)
(** ** [fmt.Sprintf("%X", bytes)] *)

Definition udigits : string := "0123456789ABCDEF".

Definition udigit (n : N) : ascii :=
  match String.get (N.to_nat n) udigits with
  | Some c => c
  | None => "0"%char
  end.

(** One byte is printed as its high nibble then its low nibble. *)
Definition fmt_X_byte (b : byte) : string :=
  let n := Byte.to_N b in
  String (udigit (N.shiftr n 4)) (String (udigit (N.land n 15)) EmptyString).

Fixpoint Sprintf_X (bs : list byte) : string :=
  match bs with
  | [] => EmptyString
  | b :: rest => (fmt_X_byte b ++ Sprintf_X rest)%string
  end.

(* ================================================================== *)
(** ** [hex.DecodeString] *)

(** [encoding/hex]'s reverse table: digits and both letter cases. *)
Definition fromHexChar (c : ascii) : option N :=
  let n := N_of_ascii c in
  if ((48 <=? n) && (n <=? 57))%N then Some (n - 48)%N
  else if ((97 <=? n) && (n <=? 102))%N then Some (n - 97 + 10)%N
  else if ((65 <=? n) && (n <=? 70))%N then Some (n - 65 + 10)%N
  else None.

Definition byte_of_nibbles (a b : N) : byte :=
  match Byte.of_N (N.lor (N.shiftl a 4) b) with
  | Some x => x
  | None => x00
  end.

(** [hex.Decode]: pairs of digits from the left; the first bad digit stops
    the decoding with [InvalidByteError]; a lone last digit gives
    [ErrLength] (after it was itself checked).  The bytes decoded before
    the error are returned with it, as in Go. *)
Fixpoint Decode (src : string) : list byte * option error :=
  match src with
  | EmptyString => ([], None)
  | String p EmptyString =>
      match fromHexChar p with
      | None => ([], Some (InvalidByteError p))
      | Some _ => ([], Some ErrLength)
      end
  | String p (String q rest) =>
      match fromHexChar p with
      | None => ([], Some (InvalidByteError p))
      | Some a =>
          match fromHexChar q with
          | None => ([], Some (InvalidByteError q))
          | Some b =>
              let '(bs, err) := Decode rest in
              (byte_of_nibbles a b :: bs, err)
          end
      end
  end.

Definition DecodeString (s : string) : list byte * option error := Decode s.

(* ================================================================== *)
(** ** Byte slices *)

(** A [[]byte]: the backing array from the slice's first element on, and
    the slice's length.  The capacity is the length of [arr]. *)
Record slice : Type := Slice { arr : list byte; len : nat }.

Definition cap (s : slice) : nat := List.length (arr s).

(** The bytes a slice denotes. *)
Definition bytes_of (s : slice) : list byte := firstn (len s) (arr s).

(** The largest number of bytes the Go runtime allocates in one piece on a
    64-bit platform ([maxAlloc] of [runtime/malloc.go]: 48 address bits). *)
Definition maxAlloc : Z := 2 ^ 48.

(** [make([]byte, n)] for an [int64] length: [runtime.makeslice] panics
    (len out of range) when the length is negative or above [maxAlloc].
    A machine that runs out of memory below that limit stops with a fatal
    error, which is no panic and is outside this model. *)
Definition make_bytes (n : Z) : res slice :=
  if (n <? 0) || (maxAlloc <? n) then Panic MakeSliceLen
  else Val (Slice (repeat x00 (Z.to_nat n)) (Z.to_nat n)).

(** [s[:hi]]: bounds are checked against the capacity. *)
Definition slice_to (s : slice) (hi : nat) : res slice :=
  if (hi <=? cap s)%nat then Val (Slice (arr s) hi) else Panic SliceBounds.

(** [s[lo:hi]]. *)
Definition slice_range (s : slice) (lo hi : nat) : res slice :=
  if ((lo <=? hi) && (hi <=? cap s))%nat
  then Val (Slice (skipn lo (arr s)) (hi - lo))
  else Panic SliceBounds.

(** [copy(dst, src)] as a read into a buffer does it: at most [len dst]
    bytes are stored at the front of the backing array. *)
Definition fill (dst : slice) (src : list byte) : nat * slice :=
  let n := Nat.min (List.length src) (len dst) in
  (n, Slice (firstn n src ++ skipn n (arr dst)) (len dst)).

(* ================================================================== *)
(** ** The network *)

Definition handle : Type := nat.

Record TCPAddr : Type := Addr { IP : string; Port : Z }.

(** The calls the client makes on package [net]. *)
Inductive event : Type :=
| EvDial (a : TCPAddr)
| EvWrite (h : handle) (p : list byte)
| EvRead (h : handle) (capacity : nat)
| EvClose (h : handle).

(** The network's side: how it answers a call, given the calls made before
    it (newest first).  [None] is Go's [nil] error.  A read answers with
    the bytes that have arrived, or with an error. *)
Record Net : Type := MkNet {
  dial_answer : list event -> TCPAddr -> option error;
  write_answer : list event -> handle -> list byte -> option error;
  read_answer : list event -> handle -> result (list byte);
  close_answer : list event -> handle -> option error
}.

(** What is known of the network at a point of the run: the calls made so
    far (newest first), how many connections were dialed (they are numbered
    from 0 in the order of dialing) and which were closed. *)
Record World : Type := MkWorld {
  trace : list event;
  dialed : nat;
  closed : list handle
}.

Definition is_closed (w : World) (h : handle) : bool :=
  existsb (Nat.eqb h) (closed w).

(** A connection is live when it was dialed and has not been closed. *)
Definition live (w : World) (h : handle) : Prop :=
  (h < dialed w)%nat /\ is_closed w h = false.

Definition log (e : event) (w : World) : World :=
  MkWorld (e :: trace w) (dialed w) (closed w).

Section NetCalls.
Variable net : Net.

(** [net.DialTCP("tcp", nil, addr)]. *)
Definition DialTCP (a : TCPAddr) (w : World) : result handle * World :=
  match dial_answer net (trace w) a with
  | Some e => (Err e, log (EvDial a) w)
  | None =>
      (OK (dialed w),
       MkWorld (EvDial a :: trace w) (S (dialed w)) (closed w))
  end.

(** [conn.Write(p)]: a closed connection refuses every call made on it. *)
Definition conn_Write (h : handle) (p : list byte) (w : World)
  : result nat * World :=
  if is_closed w h then (Err ErrNetClosing, log (EvWrite h p) w)
  else match write_answer net (trace w) h p with
       | Some e => (Err e, log (EvWrite h p) w)
       | None => (OK (List.length p), log (EvWrite h p) w)
       end.

(** [conn.Read(b)]: one read; it stores at most [len b] of the bytes that
    arrived and reports how many it stored.  The buffer after the call is
    returned with Go's [(n, err)]. *)
Definition conn_Read (h : handle) (b : slice) (w : World)
  : (slice * result nat) * World :=
  if is_closed w h then ((b, Err ErrNetClosing), log (EvRead h (len b)) w)
  else match read_answer net (trace w) h with
       | Err e => ((b, Err e), log (EvRead h (len b)) w)
       | OK data =>
           let '(n, b') := fill b data in
           ((b', OK n), log (EvRead h (len b)) w)
       end.

(** [conn.Close()]: the connection is closed whatever the call reports. *)
Definition conn_Close (h : handle) (w : World) : option error * World :=
  if is_closed w h then (Some ErrNetClosing, log (EvClose h) w)
  else (close_answer net (trace w) h,
        MkWorld (EvClose h :: trace w) (dialed w) (h :: closed w)).
End NetCalls.

(* ================================================================== *)
(** ** The station *)

(** The frame builder the client is given.  It is not part of this file of
    the program; the client only takes the strings it returns. *)
Record station : Type := MkStation {
  BuildHealthCheckRequest : string;
  BuildReadRequest : string -> Z -> Z -> string;
  BuildBitReadRequest : string -> Z -> Z -> string;
  BuildWriteRequest : string -> Z -> Z -> list byte -> string
}.

(* ================================================================== *)
(** ** Running a method *)

(** A method of a client of type [C] runs on the client and the world, and
    gives a value or panics. *)
Definition M (C A : Type) : Type := C * World -> res A * (C * World).

Definition ret {C A : Type} (a : A) : M C A := fun s => (Val a, s).

Definition bind {C A B : Type} (m : M C A) (k : A -> M C B) : M C B :=
  fun s =>
    match m s with
    | (Val a, s') => k a s'
    | (Panic p, s') => (Panic p, s')
    end.

Definition raise {C A : Type} (p : panic) : M C A := fun s => (Panic p, s).

(** A call on the network, inside a method. *)
Definition io {C A : Type} (f : World -> A * World) : M C A :=
  fun s => let '(a, w') := f (snd s) in (Val a, (fst s, w')).

(** A computation that can only panic or give a value. *)
Definition pure {C A : Type} (r : res A) : M C A := fun s => (r, s).

Declare Scope go_scope.
Delimit Scope go_scope with go.
Notation "x <- m ;; k" := (bind m (fun x => k))
  (at level 61, m at next level, right associativity) : go_scope.
Notation "' p <- m ;; k" := (bind m (fun p => k))
  (at level 61, p pattern, m at next level, right associativity) : go_scope.
Notation "m ;; k" := (bind m (fun _ => k))
  (at level 61, right associativity) : go_scope.

(** The three texts of [HealthCheck]'s errors, up to the opening bracket. *)
Definition msg_length : string := "plc connect test is fail: return length is [".
Definition msg_header : string := "plc connect test is fail: return header is [".
Definition msg_body : string := "plc connect test is fail: return body is [".

(** [errors.New(prefix + fmt.Sprintf("%X", b) + "]")]. *)
Definition check_error (prefix : string) (b : slice) : error :=
  errorString (prefix ++ Sprintf_X (bytes_of b) ++ "]")%string.

(** The checks [HealthCheck] makes on what it read (lines 96-112, and
    again 307-323), as a computation of their own.  Both [HealthCheck]
    below spell these lines out; the proofs show they run as this does. *)
Definition check_response {C : Type} (readBuff : slice) (readLen : nat)
  : M C (option error) :=
  (resp <- pure (slice_to readBuff readLen) ;;
   if negb (readLen =? 18)%nat then
     ret (Some (check_error msg_length resp))
   else
   hdr <- pure (slice_range resp 11 13) ;;
   if negb (String.eqb "0500" (Sprintf_X (bytes_of hdr))) then
     ret (Some (check_error msg_header hdr))
   else
   body <- pure (slice_range resp 13 18) ;;
   if negb (String.eqb "4142434445" (Sprintf_X (bytes_of body))) then
     ret (Some (check_error msg_body body))
   else
   ret None)%go.

(* ================================================================== *)
(** ** The client that keeps its connection (first [client3EAlive]) *)

Module Persistent.

Local Open Scope go_scope.

(** [mu] is the mutex, [true] while it is held. *)
Record client3EAlive : Type := Client {
  conn : option handle;
  tcpAddr : TCPAddr;
  stn : station;
  mu : bool
}.

Definition state : Type := (client3EAlive * World)%type.

Definition get_conn : M client3EAlive (option handle) :=
  fun s => (Val (conn (fst s)), s).

Definition set_conn (v : option handle) : M client3EAlive unit :=
  fun s =>
    let c := fst s in
    (Val tt, (Client v (tcpAddr c) (stn c) (mu c), snd s)).

Definition get_tcpAddr : M client3EAlive TCPAddr :=
  fun s => (Val (tcpAddr (fst s)), s).

Definition get_stn : M client3EAlive station :=
  fun s => (Val (stn (fst s)), s).

(** [c.mu.Lock()]: in a run with one goroutine, locking a held mutex
    never returns; the model stops there. *)
Definition mu_Lock : M client3EAlive unit :=
  fun s =>
    let c := fst s in
    if mu c then (Panic MutexMisuse, s)
    else (Val tt, (Client (conn c) (tcpAddr c) (stn c) true, snd s)).

Definition mu_Unlock : M client3EAlive unit :=
  fun s =>
    let c := fst s in
    if mu c then (Val tt, (Client (conn c) (tcpAddr c) (stn c) false, snd s))
    else (Panic MutexMisuse, s).

Section Methods.
Variable net : Net.

(** [c.conn.Close()], the result dropped; [c.conn] must not be nil. *)
Definition c_conn_Close : M client3EAlive unit :=
  c <- get_conn ;;
  match c with
  | None => raise NilDereference
  | Some h => _ <- io (conn_Close net h) ;; ret tt
  end.

(** Lines 37-43 of [getConnection]: dial and store. *)
Definition dial_and_store : M client3EAlive (result handle) :=
  a <- get_tcpAddr ;;
  r <- io (DialTCP net a) ;;
  match r with
  | Err e => ret (Err e)
  | OK h => set_conn (Some h) ;; ret (OK h)
  end.

(** [getConnection]; the deferred unlock runs when the body returns. *)
Definition getConnection : M client3EAlive (result handle) :=
  mu_Lock ;;
  r <- (c <- get_conn ;;
        match c with
        | Some h =>
            probe <- io (conn_Write net h []) ;;
            match probe with
            | OK _ => ret (OK h)
            | Err _ =>
                _ <- io (conn_Close net h) ;;
                set_conn None ;;
                dial_and_store
            end
        | None => dial_and_store
        end) ;;
  mu_Unlock ;;
  ret r.

Definition Close : M client3EAlive (option error) :=
  mu_Lock ;;
  r <- (c <- get_conn ;;
        match c with
        | Some h =>
            err <- io (conn_Close net h) ;;
            set_conn None ;;
            ret err
        | None => ret None
        end) ;;
  mu_Unlock ;;
  ret r.

Definition HealthCheck : M client3EAlive (option error) :=
  s <- get_stn ;;
  let requestStr := BuildHealthCheckRequest s in
  let '(payload, err) := DecodeString requestStr in
  match err with
  | Some e => ret (Some e)
  | None =>
  r <- getConnection ;;
  match r with
  | Err e => ret (Some e)
  | OK conn =>
  wr <- io (conn_Write net conn payload) ;;
  match wr with
  | Err e =>
      mu_Lock ;; c_conn_Close ;; set_conn None ;; mu_Unlock ;;
      ret (Some e)
  | OK _ =>
  readBuff <- pure (make_bytes 30) ;;
  '(readBuff, rd) <- io (conn_Read net conn readBuff) ;;
  match rd with
  | Err e =>
      mu_Lock ;; c_conn_Close ;; set_conn None ;; mu_Unlock ;;
      ret (Some e)
  | OK readLen =>
  resp <- pure (slice_to readBuff readLen) ;;
  if negb (readLen =? 18)%nat then
    ret (Some (check_error msg_length resp))
  else
  hdr <- pure (slice_range resp 11 13) ;;
  if negb (String.eqb "0500" (Sprintf_X (bytes_of hdr))) then
    ret (Some (check_error msg_header hdr))
  else
  body <- pure (slice_range resp 13 18) ;;
  if negb (String.eqb "4142434445" (Sprintf_X (bytes_of body))) then
    ret (Some (check_error msg_body body))
  else
  ret None
  end end end end.

Definition Read (deviceName : string) (offset numPoints : Z)
  : M client3EAlive (result slice) :=
  s <- get_stn ;;
  let requestStr := BuildReadRequest s deviceName offset numPoints in
  let '(payload, err) := DecodeString requestStr in
  match err with
  | Some e => ret (Err e)
  | None =>
  r <- getConnection ;;
  match r with
  | Err e => ret (Err e)
  | OK conn =>
  wr <- io (conn_Write net conn payload) ;;
  match wr with
  | Err e =>
      mu_Lock ;; c_conn_Close ;; set_conn None ;; mu_Unlock ;;
      ret (Err e)
  | OK _ =>
  readBuff <- pure (make_bytes (add64 22 (mul64 2 numPoints))) ;;
  '(readBuff, rd) <- io (conn_Read net conn readBuff) ;;
  match rd with
  | Err e =>
      mu_Lock ;; c_conn_Close ;; set_conn None ;; mu_Unlock ;;
      ret (Err e)
  | OK readLen =>
  out <- pure (slice_to readBuff readLen) ;;
  ret (OK out)
  end end end end.

Definition BitRead (deviceName : string) (offset numPoints : Z)
  : M client3EAlive (result slice) :=
  s <- get_stn ;;
  let requestStr := BuildBitReadRequest s deviceName offset numPoints in
  let '(payload, err) := DecodeString requestStr in
  match err with
  | Some e => ret (Err e)
  | None =>
  r <- getConnection ;;
  match r with
  | Err e => ret (Err e)
  | OK conn =>
  wr <- io (conn_Write net conn payload) ;;
  match wr with
  | Err e =>
      mu_Lock ;; c_conn_Close ;; set_conn None ;; mu_Unlock ;;
      ret (Err e)
  | OK _ =>
  readBuff <- pure (make_bytes (add64 22 (mul64 2 numPoints))) ;;
  '(readBuff, rd) <- io (conn_Read net conn readBuff) ;;
  match rd with
  | Err e =>
      mu_Lock ;; c_conn_Close ;; set_conn None ;; mu_Unlock ;;
      ret (Err e)
  | OK readLen =>
  out <- pure (slice_to readBuff readLen) ;;
  ret (OK out)
  end end end end.

Definition Write (deviceName : string) (offset numPoints : Z)
                 (writeData : list byte)
  : M client3EAlive (result slice) :=
  s <- get_stn ;;
  let requestStr := BuildWriteRequest s deviceName offset numPoints writeData in
  let '(payload, err) := DecodeString requestStr in
  match err with
  | Some e => ret (Err e)
  | None =>
  r <- getConnection ;;
  match r with
  | Err e => ret (Err e)
  | OK conn =>
  wr <- io (conn_Write net conn payload) ;;
  match wr with
  | Err e =>
      mu_Lock ;; c_conn_Close ;; set_conn None ;; mu_Unlock ;;
      ret (Err e)
  | OK _ =>
  readBuff <- pure (make_bytes 22) ;;
  '(readBuff, rd) <- io (conn_Read net conn readBuff) ;;
  match rd with
  | Err e =>
      mu_Lock ;; c_conn_Close ;; set_conn None ;; mu_Unlock ;;
      ret (Err e)
  | OK readLen =>
  out <- pure (slice_to readBuff readLen) ;;
  ret (OK out)
  end end end end.

(** [Read], [BitRead] and [Write] are the same text from the decoding
    of the frame on, up to the length of the read buffer; the proofs go
    through this common shape. *)
Definition exchange (requestStr : string) (bufLen : Z)
  : M client3EAlive (result slice) :=
  let '(payload, err) := DecodeString requestStr in
  match err with
  | Some e => ret (Err e)
  | None =>
  r <- getConnection ;;
  match r with
  | Err e => ret (Err e)
  | OK conn =>
  wr <- io (conn_Write net conn payload) ;;
  match wr with
  | Err e =>
      mu_Lock ;; c_conn_Close ;; set_conn None ;; mu_Unlock ;;
      ret (Err e)
  | OK _ =>
  readBuff <- pure (make_bytes bufLen) ;;
  '(readBuff, rd) <- io (conn_Read net conn readBuff) ;;
  match rd with
  | Err e =>
      mu_Lock ;; c_conn_Close ;; set_conn None ;; mu_Unlock ;;
      ret (Err e)
  | OK readLen =>
  out <- pure (slice_to readBuff readLen) ;;
  ret (OK out)
  end end end end.
End Methods.

(** [New3EAliveClient], once the address is resolved. *)
Definition New3EAliveClient (a : TCPAddr) (s : station) : client3EAlive :=
  Client None a s false.

End Persistent.

(* ================================================================== *)
(** ** The client connected by its caller (second [client3EAlive]) *)

Module Explicit.

Local Open Scope go_scope.

Record client3EAlive : Type := Client {
  conn : option handle;
  tcpAddr : TCPAddr;
  stn : station
}.

Definition state : Type := (client3EAlive * World)%type.

Definition get_conn : M client3EAlive (option handle) :=
  fun s => (Val (conn (fst s)), s).

Definition set_conn (v : option handle) : M client3EAlive unit :=
  fun s =>
    let c := fst s in
    (Val tt, (Client v (tcpAddr c) (stn c), snd s)).

Definition get_tcpAddr : M client3EAlive TCPAddr :=
  fun s => (Val (tcpAddr (fst s)), s).

Definition get_stn : M client3EAlive station :=
  fun s => (Val (stn (fst s)), s).

Section Methods.
Variable net : Net.

(** [c.conn.Write(p)]: a method call on a nil interface panics. *)
Definition c_conn_Write (p : list byte) : M client3EAlive (result nat) :=
  c <- get_conn ;;
  match c with
  | None => raise NilDereference
  | Some h => io (conn_Write net h p)
  end.

(** [c.conn.Read(b)]. *)
Definition c_conn_Read (b : slice)
  : M client3EAlive (slice * result nat) :=
  c <- get_conn ;;
  match c with
  | None => raise NilDereference
  | Some h => io (conn_Read net h b)
  end.

Definition Connect : M client3EAlive (option error) :=
  c <- get_conn ;;
  match c with
  | Some h => _ <- io (conn_Close net h) ;; ret tt
  | None => ret tt
  end ;;
  a <- get_tcpAddr ;;
  r <- io (DialTCP net a) ;;
  match r with
  | Err e => ret (Some e)
  | OK h => set_conn (Some h) ;; ret None
  end.

Definition Close : M client3EAlive (option error) :=
  c <- get_conn ;;
  match c with
  | Some h =>
      err <- io (conn_Close net h) ;;
      set_conn None ;;
      ret err
  | None => ret None
  end.

Definition HealthCheck : M client3EAlive (option error) :=
  s <- get_stn ;;
  let requestStr := BuildHealthCheckRequest s in
  let '(payload, err) := DecodeString requestStr in
  match err with
  | Some e => ret (Some e)
  | None =>
  wr <- c_conn_Write payload ;;
  match wr with
  | Err e => ret (Some e)
  | OK _ =>
  readBuff <- pure (make_bytes 30) ;;
  '(readBuff, rd) <- c_conn_Read readBuff ;;
  match rd with
  | Err e => ret (Some e)
  | OK readLen =>
  resp <- pure (slice_to readBuff readLen) ;;
  if negb (readLen =? 18)%nat then
    ret (Some (check_error msg_length resp))
  else
  hdr <- pure (slice_range resp 11 13) ;;
  if negb (String.eqb "0500" (Sprintf_X (bytes_of hdr))) then
    ret (Some (check_error msg_header hdr))
  else
  body <- pure (slice_range resp 13 18) ;;
  if negb (String.eqb "4142434445" (Sprintf_X (bytes_of body))) then
    ret (Some (check_error msg_body body))
  else
  ret None
  end end end.

Definition Read (deviceName : string) (offset numPoints : Z)
  : M client3EAlive (result slice) :=
  s <- get_stn ;;
  let requestStr := BuildReadRequest s deviceName offset numPoints in
  let '(payload, err) := DecodeString requestStr in
  match err with
  | Some e => ret (Err e)
  | None =>
  wr <- c_conn_Write payload ;;
  match wr with
  | Err e => ret (Err e)
  | OK _ =>
  readBuff <- pure (make_bytes (add64 22 (mul64 2 numPoints))) ;;
  '(readBuff, rd) <- c_conn_Read readBuff ;;
  match rd with
  | Err e => ret (Err e)
  | OK readLen =>
  out <- pure (slice_to readBuff readLen) ;;
  ret (OK out)
  end end end.

Definition BitRead (deviceName : string) (offset numPoints : Z)
  : M client3EAlive (result slice) :=
  s <- get_stn ;;
  let requestStr := BuildBitReadRequest s deviceName offset numPoints in
  let '(payload, err) := DecodeString requestStr in
  match err with
  | Some e => ret (Err e)
  | None =>
  wr <- c_conn_Write payload ;;
  match wr with
  | Err e => ret (Err e)
  | OK _ =>
  readBuff <- pure (make_bytes (add64 22 (mul64 2 numPoints))) ;;
  '(readBuff, rd) <- c_conn_Read readBuff ;;
  match rd with
  | Err e => ret (Err e)
  | OK readLen =>
  out <- pure (slice_to readBuff readLen) ;;
  ret (OK out)
  end end end.

Definition Write (deviceName : string) (offset numPoints : Z)
                 (writeData : list byte)
  : M client3EAlive (result slice) :=
  s <- get_stn ;;
  let requestStr := BuildWriteRequest s deviceName offset numPoints writeData in
  let '(payload, err) := DecodeString requestStr in
  match err with
  | Some e => ret (Err e)
  | None =>
  wr <- c_conn_Write payload ;;
  match wr with
  | Err e => ret (Err e)
  | OK _ =>
  readBuff <- pure (make_bytes 22) ;;
  '(readBuff, rd) <- c_conn_Read readBuff ;;
  match rd with
  | Err e => ret (Err e)
  | OK readLen =>
  out <- pure (slice_to readBuff readLen) ;;
  ret (OK out)
  end end end.

(** The common shape of [Read], [BitRead] and [Write]. *)
Definition exchange (requestStr : string) (bufLen : Z)
  : M client3EAlive (result slice) :=
  let '(payload, err) := DecodeString requestStr in
  match err with
  | Some e => ret (Err e)
  | None =>
  wr <- c_conn_Write payload ;;
  match wr with
  | Err e => ret (Err e)
  | OK _ =>
  readBuff <- pure (make_bytes bufLen) ;;
  '(readBuff, rd) <- c_conn_Read readBuff ;;
  match rd with
  | Err e => ret (Err e)
  | OK readLen =>
  out <- pure (slice_to readBuff readLen) ;;
  ret (OK out)
  end end end.
End Methods.

Definition New3EAliveClient (a : TCPAddr) (s : station) : client3EAlive :=
  Client None a s.

End Explicit.

(* ================================================================== *)
(** ** Words used in the statements *)

(** The two fields [HealthCheck] looks at in an 18-byte answer. *)
Definition hc_header (resp : list byte) : list byte := firstn 2 (skipn 11 resp).
Definition hc_body (resp : list byte) : list byte := firstn 5 (skipn 13 resp).
Definition expected_header : list byte := [x05; x00].
Definition expected_body : list byte := [x41; x42; x43; x44; x45].

(** What [HealthCheck] answers on a response of [readLen] bytes [resp]:
    success exactly when the three checks pass, and otherwise the error of
    the first check that fails, carrying the bytes it looked at in hex. *)
Definition HealthCheck_verdict (readLen : nat) (resp : list byte)
    (r : res (option error)) : Prop :=
  (r = Val None <->
     readLen = 18%nat /\ hc_header resp = expected_header /\
     hc_body resp = expected_body) /\
  (readLen <> 18%nat ->
     r = Val (Some (errorString (msg_length ++ Sprintf_X resp ++ "]")))) /\
  (readLen = 18%nat -> hc_header resp <> expected_header ->
     r = Val (Some (errorString
                      (msg_header ++ Sprintf_X (hc_header resp) ++ "]")))) /\
  (readLen = 18%nat -> hc_header resp = expected_header ->
     hc_body resp <> expected_body ->
     r = Val (Some (errorString
                      (msg_body ++ Sprintf_X (hc_body resp) ++ "]")))).

(** The error a failed check gives is one of the three texts around the hex
    of the bytes received: all of them for the length, the field for the
    header and the body. *)
Definition carries_received (readLen : nat) (resp : list byte) (e : error)
  : Prop :=
  (readLen <> 18%nat /\
   e = errorString (msg_length ++ Sprintf_X resp ++ "]")) \/
  (readLen = 18%nat /\ hc_header resp <> expected_header /\
   e = errorString (msg_header ++ Sprintf_X (hc_header resp) ++ "]")) \/
  (readLen = 18%nat /\ hc_header resp = expected_header /\
   hc_body resp <> expected_body /\
   e = errorString (msg_body ++ Sprintf_X (hc_body resp) ++ "]")).

(** The stored connection was torn down: the method returned [v], the
    client stores no connection, [h] is closed, the mutex is free, and the
    calls made on the network are exactly [tr]. *)
Definition torn_down {A : Type} (out : res A * Persistent.state) (v : A)
    (h : handle) (tr : list event) : Prop :=
  fst out = Val v /\
  Persistent.conn (fst (snd out)) = None /\
  Persistent.mu (fst (snd out)) = false /\
  is_closed (snd (snd out)) h = true /\
  trace (snd (snd out)) = tr.

(** After the connection [h] was acquired in world [w1], a failing write or
    a failing read of the one request tears the connection down and the
    method returns that very error ([inj e]); the trace shows one write, at
    most one read, and the close. *)
Definition io_failure_spec {A : Type} (net : Net) (h : handle) (w1 : World)
    (payload : list byte) (bufLen : Z) (inj : error -> A)
    (out : res A * Persistent.state) : Prop :=
  (forall e w2,
      conn_Write net h payload w1 = (Err e, w2) ->
      torn_down out (inj e) h (EvClose h :: EvWrite h payload :: trace w1)) /\
  (forall n w2 b b' e w3,
      conn_Write net h payload w1 = (OK n, w2) ->
      make_bytes bufLen = Val b ->
      conn_Read net h b w2 = ((b', Err e), w3) ->
      torn_down out (inj e) h
        (EvClose h :: EvRead h (len b) :: EvWrite h payload :: trace w1)).

(** The size of the buffer [Read] and [BitRead] are to read into. *)
Definition response_size (numPoints : Z) : nat := Z.to_nat (22 + 2 * numPoints).

(** After the request was written (world [w2]), the method reads once into
    a zeroed buffer of [size] bytes; when that read reports [readLen] bytes,
    the method returns the first [readLen] bytes of the buffer, a slice of
    length [readLen] and capacity [size], and leaves the client as [c1]. *)
Definition sized_read_spec {C : Type} (net : Net) (h : handle) (w2 : World)
    (c1 : C) (size : nat) (out : res (result slice) * (C * World)) : Prop :=
  forall b' readLen w3,
    conn_Read net h (Slice (repeat x00 size) size) w2
      = ((b', OK readLen), w3) ->
    exists o,
      out = (Val (OK o), (c1, w3)) /\
      len o = readLen /\
      (readLen <= size)%nat /\
      cap o = size /\
      bytes_of o = firstn readLen (arr b') /\
      trace w3 = EvRead h size :: trace w2.

(** The method returned, without a panic, and a slice it returned was cut
    from a buffer of [22 + 2*numPoints] bytes. *)
Definition returns_sized {S : Type} (numPoints : Z)
    (out : res (result slice) * S) : Prop :=
  exists v s',
    out = (Val v, s') /\
    (forall o, v = OK o -> Z.of_nat (cap o) = 22 + 2 * numPoints).

(** With the world [w1] at hand when the request is due, the state [s] was
    reached by writing [payload] on [h] first, whatever followed. *)
Definition request_written {C : Type} (h : handle) (payload : list byte)
    (w1 : World) (s : C * World) : Prop :=
  exists later, trace (snd s) = later ++ EvWrite h payload :: trace w1.

(** The invariant of the connection field: nothing stored, or a connection
    that was dialed and is not closed. *)
Definition conn_invariant (c : option handle) (w : World) : Prop :=
  match c with
  | None => True
  | Some h => live w h
  end.

(** A world is well formed when every closed connection was dialed. *)
Definition world_ok (w : World) : Prop :=
  forall x, is_closed w x = true -> (x < dialed w)%nat.

(** The state the persistent client keeps between calls: the mutex is
    free, the world is well formed and the connection field holds nothing
    or a live connection. *)
Definition persistent_ok (s : Persistent.state) : Prop :=
  Persistent.mu (fst s) = false /\
  world_ok (snd s) /\
  conn_invariant (Persistent.conn (fst s)) (snd s).

(** The explicit client after a failing write or read of the one request
    on its stored connection [h]: the method returned the error ([inj e]),
    the client is as it was, and the trace shows the write and, when the
    write succeeded, the one read; nothing was closed or dialed. *)
Definition explicit_io_failure_spec {A : Type} (net : Net) (h : handle)
    (c : Explicit.client3EAlive) (w : World) (payload : list byte)
    (bufLen : Z) (inj : error -> A) (out : res A * Explicit.state) : Prop :=
  (forall e w2,
      conn_Write net h payload w = (Err e, w2) ->
      out = (Val (inj e), (c, log (EvWrite h payload) w))) /\
  (forall n w2 b b' e w3,
      conn_Write net h payload w = (OK n, w2) ->
      make_bytes bufLen = Val b ->
      conn_Read net h b w2 = ((b', Err e), w3) ->
      out = (Val (inj e),
             (c, log (EvRead h (len b)) (log (EvWrite h payload) w)))).

(** What a method of the explicit client may change: the trace only. *)
Definition explicit_frame (c : Explicit.client3EAlive) (w : World)
    (s : Explicit.state) : Prop :=
  fst s = c /\ closed (snd s) = closed w /\ dialed (snd s) = dialed w.

(** A call of the persistent client that succeeded on connection [h]:
    it returned a slice, left the client as [c1] and the world as [w3];
    [h] is still stored and open, and the next acquisition, when its probe
    succeeds, hands out [h] again without dialing. *)
Definition reuse_spec (net : Net) (h : handle)
    (c1 : Persistent.client3EAlive) (w3 : World)
    (out : res (result slice) * Persistent.state) : Prop :=
  (exists o, out = (Val (OK o), (c1, w3))) /\
  Persistent.conn c1 = Some h /\
  is_closed w3 h = false /\
  (forall n' w4,
      conn_Write net h [] w3 = (OK n', w4) ->
      Persistent.getConnection net (c1, w3) = (Val (OK h), (c1, w4)) /\
      dialed w4 = dialed w3).

(* ================================================================== *)
(** ** Small networks and stations to run the client on *)

(** A network that answers every dial with [d], the zero-length probe with
    [probe], every other write with [wr], every read with [rd], and closes
    without error. *)
Definition fixed_net (d probe wr : option error) (rd : result (list byte))
  : Net :=
  MkNet (fun _ _ => d)
        (fun _ _ p => match p with [] => probe | _ => wr end)
        (fun _ _ => rd)
        (fun _ _ => None).

(** A station that returns [hc] for the health check and [req] for every
    other request. *)
Definition stub_station (hc req : string) : station :=
  MkStation hc (fun _ _ _ => req) (fun _ _ _ => req) (fun _ _ _ _ => req).

Definition plc : TCPAddr := Addr "192.168.0.10" 5007.

Definition fresh_world : World := MkWorld [] 0 [].

(** A world in which connection 0 was dialed and is open. *)
Definition one_open : World := MkWorld [EvDial plc] 1 [].

(** An 18-byte answer that passes the health check. *)
Definition good_answer : list byte :=
  repeat x00 11 ++ expected_header ++ expected_body.

(** A network on which the zero-length probe fails and all else works. *)
Definition probe_fails_net : Net :=
  fixed_net None (Some (OpError 1)) None (OK good_answer).

(** A network on which everything works and every read brings [data]. *)
Definition calm_net (data : list byte) : Net :=
  fixed_net None None None (OK data).

(** A persistent client that stores connection 0. *)
Definition stored0 (st : station) : Persistent.client3EAlive :=
  Persistent.Client (Some 0%nat) plc st false.

(** An explicit client that stores connection 0. *)
Definition connected0 (st : station) : Explicit.client3EAlive :=
  Explicit.Client (Some 0%nat) plc st.

(** A station whose frames all decode to the two bytes [0x50 0x00]. *)
Definition good_station : station := stub_station "5000" "5000".

(** A station whose frames have an odd number of digits. *)
Definition odd_station : station := stub_station "500" "500".

(** Networks on which the write of a request, or the read of its answer,
    fails. *)
Definition write_fails_net : Net :=
  fixed_net None None (Some (OpError 2)) (OK good_answer).

Definition read_fails_net : Net :=
  fixed_net None None None (Err (OpError 3)).

(** A network on which no dial succeeds. *)
Definition no_route_net : Net :=
  fixed_net (Some (OpError 4)) None None (OK good_answer).

(** A 42-byte answer, as a read of ten points gets. *)
Definition ten_points_answer : list byte := repeat x01 42.

(** A 22-byte acknowledgment, as a write gets. *)
Definition ack_answer : list byte := repeat x02 22.

(** A network on which every write of a request on connection 0 fails and
    all else works; every read brings [ten_points_answer]. *)
Definition broken_first_net : Net :=
  MkNet (fun _ _ => None)
        (fun _ h p =>
           match p with
           | [] => None
           | _ => if (h =? 0)%nat then Some (OpError 2) else None
           end)
        (fun _ _ => OK ten_points_answer)
        (fun _ _ => None).

(** The world of an explicit client that stores connection 0 and has
    already made one call on it: the newest events are a write and a read. *)
Definition second_call_world : World :=
  MkWorld [EvRead 0%nat 22; EvWrite 0%nat [x50; x00]; EvDial plc] 1 [].

Arguments conn_Write : simpl never.
Arguments Persistent.getConnection : simpl never.
Arguments conn_Read : simpl never.
Arguments conn_Close : simpl never.
Arguments DialTCP : simpl never.
Arguments is_closed : simpl never.
Arguments make_bytes : simpl never.

(* ================================================================== *)
(** * Proofs *)

(** ** Hexadecimal text *)

Lemma fmt_X_byte_digits (b : byte) :
  exists c1 c2 hi lo,
    fmt_X_byte b = String c1 (String c2 EmptyString) /\
    fromHexChar c1 = Some hi /\ fromHexChar c2 = Some lo /\
    byte_of_nibbles hi lo = b.
Proof.
  destruct b; do 4 eexists; repeat split; vm_compute; reflexivity.
Qed.

(** Decoding what [%X] printed gives the bytes back. *)
Lemma Decode_Sprintf_X (bs : list byte) : Decode (Sprintf_X bs) = (bs, None).
Proof.
  induction bs as [|b rest IH]; [reflexivity|].
  destruct (fmt_X_byte_digits b) as (c1 & c2 & hi & lo & E & H1 & H2 & Hb).
  cbn [Sprintf_X]. rewrite E. cbn [String.append Decode].
  rewrite H1, H2, IH, Hb. reflexivity.
Qed.

Lemma Sprintf_X_inj (a b : list byte) : Sprintf_X a = Sprintf_X b -> a = b.
Proof.
  intros E. pose proof (Decode_Sprintf_X a) as Ha.
  rewrite E, Decode_Sprintf_X in Ha. congruence.
Qed.

Lemma eqb_Sprintf_X (lit bs : list byte) :
  String.eqb (Sprintf_X lit) (Sprintf_X bs) = true <-> bs = lit.
Proof.
  rewrite String.eqb_eq. split.
  - intros E. symmetry. now apply Sprintf_X_inj.
  - now intros ->.
Qed.

(** ** Lists and slices *)

Lemma window_of_prefix {A : Type} (l : list A) (n lo k : nat) :
  (lo + k <= n)%nat ->
  firstn k (skipn lo (firstn n l)) = firstn k (skipn lo l).
Proof.
  intros H. rewrite skipn_firstn_comm, firstn_firstn. f_equal. lia.
Qed.

Lemma make_bytes_Val (n : Z) :
  0 <= n <= maxAlloc ->
  make_bytes n = Val (Slice (repeat x00 (Z.to_nat n)) (Z.to_nat n)).
Proof.
  intros H. unfold make_bytes.
  destruct (Z.ltb_spec n 0); [lia|].
  destruct (Z.ltb_spec maxAlloc n); [lia | reflexivity].
Qed.

(** [make] panics exactly outside the range from 0 to [maxAlloc]. *)
Lemma make_bytes_Panic (n : Z) :
  n < 0 \/ maxAlloc < n -> make_bytes n = Panic MakeSliceLen.
Proof.
  intros H. unfold make_bytes.
  destruct (Z.ltb_spec n 0); [reflexivity|].
  destruct (Z.ltb_spec maxAlloc n); [reflexivity | lia].
Qed.

Lemma maxAlloc_int64 : maxAlloc <= int64_max.
Proof. unfold maxAlloc, int64_max. lia. Qed.

Lemma make_bytes_shape (n : Z) (b : slice) :
  make_bytes n = Val b ->
  0 <= n <= maxAlloc /\ len b = Z.to_nat n /\ cap b = Z.to_nat n.
Proof.
  unfold make_bytes. destruct (Z.ltb_spec n 0); [discriminate|].
  destruct (Z.ltb_spec maxAlloc n); [discriminate|].
  intros E. inversion E; subst. unfold cap. cbn [arr len].
  rewrite repeat_length. repeat split; lia.
Qed.

Lemma fill_shape (b : slice) (data : list byte) (n : nat) (b' : slice) :
  fill b data = (n, b') ->
  (len b <= cap b)%nat ->
  n = Nat.min (List.length data) (len b) /\
  len b' = len b /\ cap b' = cap b /\
  firstn n (arr b') = firstn (len b) data.
Proof.
  unfold fill, cap. intros E Hle. inversion E; subst; clear E. cbn [arr len].
  set (n := Nat.min (List.length data) (len b)).
  assert (Hn : List.length (firstn n data) = n)
    by (rewrite length_firstn; unfold n; lia).
  repeat split.
  - rewrite length_app, Hn, length_skipn. unfold n. lia.
  - rewrite firstn_app, Hn, Nat.sub_diag, firstn_O, app_nil_r, firstn_firstn.
    rewrite Nat.min_id. unfold n.
    destruct (Nat.le_gt_cases (List.length data) (len b)).
    + rewrite Nat.min_l by assumption.
      now rewrite !firstn_all2 by lia.
    + now rewrite Nat.min_r by lia.
Qed.

(** ** The calls on the network *)

Lemma is_closed_log (e : event) (w : World) (h : handle) :
  is_closed (log e w) h = is_closed w h.
Proof. reflexivity. Qed.

Lemma conn_Write_world net h p w r w' :
  conn_Write net h p w = (r, w') -> w' = log (EvWrite h p) w.
Proof.
  unfold conn_Write. destruct (is_closed w h); [congruence|].
  destruct (write_answer net (trace w) h p); congruence.
Qed.

Lemma conn_Write_OK_open net h p w n w' :
  conn_Write net h p w = (OK n, w') -> is_closed w h = false.
Proof.
  unfold conn_Write. destruct (is_closed w h); [discriminate | reflexivity].
Qed.

Lemma conn_Close_world net h w r w' :
  conn_Close net h w = (r, w') ->
  trace w' = EvClose h :: trace w /\ dialed w' = dialed w /\
  is_closed w' h = true /\
  (forall x, is_closed w x = true -> is_closed w' x = true).
Proof.
  unfold conn_Close. destruct (is_closed w h) eqn:Hc; intros E;
    inversion E; subst; clear E; cbn; repeat split; auto.
  - unfold is_closed. cbn. now rewrite Nat.eqb_refl.
  - intros x Hx. unfold is_closed in *. cbn. rewrite Hx. apply orb_true_r.
Qed.

Lemma conn_Read_world net h b w b' r w' :
  conn_Read net h b w = ((b', r), w') -> w' = log (EvRead h (len b)) w.
Proof.
  unfold conn_Read. destruct (is_closed w h); [congruence|].
  destruct (read_answer net (trace w) h); [|congruence].
  destruct (fill b a). congruence.
Qed.

(** A read that succeeds stored a prefix of what arrived, no longer than the
    buffer, and left the buffer's length and capacity as they were. *)
Lemma conn_Read_OK net h b w b' n w' :
  conn_Read net h b w = ((b', OK n), w') ->
  (len b <= cap b)%nat ->
  exists data,
    read_answer net (trace w) h = OK data /\
    is_closed w h = false /\
    n = Nat.min (List.length data) (len b) /\
    len b' = len b /\ cap b' = cap b /\
    firstn n (arr b') = firstn (len b) data.
Proof.
  unfold conn_Read. destruct (is_closed w h) eqn:Hc; [discriminate|].
  destruct (read_answer net (trace w) h) as [data|e]; [|discriminate].
  destruct (fill b data) as [n0 b0] eqn:Hf. intros E Hle.
  inversion E; subst; clear E.
  exists data. destruct (fill_shape _ _ _ _ Hf Hle) as (? & ? & ? & ?).
  repeat split; auto.
Qed.

(** ** Running the methods of the persistent client *)

Ltac run_persistent :=
  unfold Persistent.getConnection, Persistent.dial_and_store,
    Persistent.c_conn_Close, Persistent.mu_Lock, Persistent.mu_Unlock,
    Persistent.get_conn, Persistent.set_conn, Persistent.get_tcpAddr,
    Persistent.get_stn, bind, ret, io, pure, raise; cbn.

Ltac run_explicit :=
  unfold Explicit.c_conn_Write, Explicit.c_conn_Read,
    Explicit.get_conn, Explicit.set_conn, Explicit.get_tcpAddr,
    Explicit.get_stn, bind, ret, io, pure, raise; cbn.

(** Case analysis on the next call made on the network. *)
Ltac case_io :=
  match goal with
  | |- context [conn_Write ?n ?h ?p ?w] =>
      destruct (conn_Write n h p w) as [[?|?] ?] eqn:?
  | |- context [conn_Close ?n ?h ?w] =>
      destruct (conn_Close n h w) as [? ?] eqn:?
  | |- context [DialTCP ?n ?a ?w] =>
      destruct (DialTCP n a w) as [[?|?] ?] eqn:?
  | |- context [conn_Read ?n ?h ?b ?w] =>
      destruct (conn_Read n h b w) as [[? [?|?]] ?] eqn:?
  end; cbn.

(** An acquired connection is the stored one; the mutex is free again and
    the rest of the client is as it was. *)
Lemma getConnection_OK net c w h c1 w1 :
  Persistent.getConnection net (c, w) = (Val (OK h), (c1, w1)) ->
  Persistent.conn c1 = Some h /\ Persistent.mu c1 = false /\
  Persistent.stn c1 = Persistent.stn c /\
  Persistent.tcpAddr c1 = Persistent.tcpAddr c /\
  Persistent.mu c = false.
Proof.
  destruct c as [[h0|] a st [|]]; run_persistent; try discriminate;
    repeat case_io; intros H; inversion H; subst; cbn; auto 6.
Qed.

(** [getConnection] never panics when the mutex is free. *)
Lemma getConnection_total net c w :
  Persistent.mu c = false ->
  exists r c1 w1,
    Persistent.getConnection net (c, w) = (Val r, (c1, w1)) /\
    Persistent.mu c1 = false /\ Persistent.stn c1 = Persistent.stn c.
Proof.
  destruct c as [[h0|] a st m]; cbn; intros ->; run_persistent;
    repeat case_io; do 3 eexists; repeat split.
Qed.

(** With the mutex free and the probe on the stored connection answered
    without error, [getConnection] hands out the stored connection and
    changes nothing but the trace. *)
Lemma getConnection_probe_ok net c w h n w1 :
  Persistent.mu c = false ->
  Persistent.conn c = Some h ->
  conn_Write net h [] w = (OK n, w1) ->
  Persistent.getConnection net (c, w) = (Val (OK h), (c, w1)).
Proof.
  destruct c as [cn a st m]. cbn. intros -> -> Hw.
  run_persistent. rewrite Hw. reflexivity.
Qed.

(** A new client stores nothing; its first acquisition dials connection 0
    and stores it. *)
Example first_acquisition_dials :
  Persistent.getConnection (calm_net good_answer)
      (Persistent.New3EAliveClient plc good_station, fresh_world) =
    (Val (OK 0%nat), (stored0 good_station, one_open)).
Proof. reflexivity. Qed.

(** C2. [getConnection] with a stored connection [h] and the mutex free:
    when the zero-length write on [h] succeeds it returns [h], the client is
    unchanged and nothing was dialed; when that write fails, [h] is closed
    and dropped and the configured address is dialed: a failed dial returns
    its error and leaves no connection stored, a successful dial stores the
    new connection and returns it. *)
Theorem getConnection_acquire :
  forall net c w h,
    Persistent.mu c = false ->
    Persistent.conn c = Some h ->
    let a := Persistent.tcpAddr c in
    let st := Persistent.stn c in
    (forall n w1,
        conn_Write net h [] w = (OK n, w1) ->
        Persistent.getConnection net (c, w) = (Val (OK h), (c, w1)) /\
        trace w1 = EvWrite h [] :: trace w /\ dialed w1 = dialed w) /\
    (forall e w1,
        conn_Write net h [] w = (Err e, w1) ->
        let tr := EvClose h :: EvWrite h [] :: trace w in
        (forall de,
            dial_answer net tr a = Some de ->
            exists w',
              Persistent.getConnection net (c, w) =
                (Val (Err de), (Persistent.Client None a st false, w')) /\
              is_closed w' h = true /\
              trace w' = EvDial a :: tr /\ dialed w' = dialed w) /\
        (dial_answer net tr a = None ->
         exists w',
           Persistent.getConnection net (c, w) =
             (Val (OK (dialed w)),
              (Persistent.Client (Some (dialed w)) a st false, w')) /\
           is_closed w' h = true /\
           trace w' = EvDial a :: tr /\ dialed w' = S (dialed w))).
Proof.
  intros net [cn a st m] w h Hmu Hc. cbn in Hmu, Hc. subst m cn. cbn.
  split.
  - intros n w1 Hw.
    rewrite (getConnection_probe_ok net (Persistent.Client (Some h) a st false)
               w h n w1 eq_refl eq_refl Hw).
    apply conn_Write_world in Hw. subst w1. auto.
  - intros e w1 Hw.
    assert (Hw1 : w1 = log (EvWrite h []) w) by (eapply conn_Write_world; eauto).
    destruct (conn_Close net h w1) as [ce w2] eqn:Hcl.
    destruct (conn_Close_world _ _ _ _ _ Hcl) as (Ht & Hd & Hclosed & _).
    assert (Htr : trace w2 = EvClose h :: EvWrite h [] :: trace w)
      by (rewrite Ht, Hw1; reflexivity).
    assert (Hdl : dialed w2 = dialed w) by (rewrite Hd, Hw1; reflexivity).
    split.
    + intros de Hde. run_persistent. rewrite Hw. cbn. rewrite Hcl. cbn.
      unfold DialTCP. rewrite Htr, Hde. cbn.
      eexists; split; [reflexivity|]. cbn. rewrite Htr, Hdl.
      repeat split; auto.
    + intros Hde. run_persistent. rewrite Hw. cbn. rewrite Hcl. cbn.
      unfold DialTCP. rewrite Htr, Hde. cbn. rewrite Hdl.
      eexists; split; [reflexivity|]. cbn.
      repeat split; auto.
Qed.

Lemma getConnection_acquire_witness :
  exists w',
    Persistent.getConnection probe_fails_net (stored0 good_station, one_open) =
      (Val (OK 1%nat),
       (Persistent.Client (Some 1%nat) plc good_station false, w')) /\
    is_closed w' 0%nat = true /\
    trace w' = [EvDial plc; EvClose 0%nat; EvWrite 0%nat []; EvDial plc] /\
    dialed w' = 2%nat.
Proof.
  destruct (getConnection_acquire probe_fails_net (stored0 good_station)
              one_open 0%nat eq_refl eq_refl) as [_ H].
  destruct (H (OpError 1) (log (EvWrite 0%nat []) one_open) eq_refl)
    as [_ H2].
  exact (H2 eq_refl).
Defined.

(** ** [HealthCheck] on a received response *)

Ltac verdict :=
  unfold HealthCheck_verdict;
  split; [split; [intros E; try discriminate E; auto
                 |intros (E1' & E2' & E3'); try congruence; try contradiction]
         |split; [|split]; intros; try congruence; try contradiction].

(** The checks never panic on a 30-byte buffer, leave client and world as
    they are, and answer as [HealthCheck_verdict] says. *)
Lemma check_response_verdict {C : Type} (buf : slice) (readLen : nat)
    (s : C * World) :
  cap buf = 30%nat -> (readLen <= 30)%nat ->
  exists r, check_response buf readLen s = (r, s) /\
            HealthCheck_verdict readLen (firstn readLen (arr buf)) r.
Proof.
  intros Hcap Hle. unfold check_response, bind, pure, ret, slice_to.
  destruct (Nat.leb_spec readLen (cap buf)) as [_|]; [|lia].
  destruct (Nat.eqb_spec readLen 18) as [->|Hne]; cbn [negb].
  - unfold slice_range, cap, check_error, bytes_of. cbn [arr len].
    unfold cap in Hcap. rewrite Hcap. cbn [Nat.leb andb Nat.sub arr len].
    change "0500"%string with (Sprintf_X expected_header).
    change "4142434445"%string with (Sprintf_X expected_body).
    rewrite <- (window_of_prefix (arr buf) 18 11 2) by lia.
    rewrite <- (window_of_prefix (arr buf) 18 13 5) by lia.
    fold (hc_header (firstn 18 (arr buf))) (hc_body (firstn 18 (arr buf))).
    destruct (String.eqb _ (Sprintf_X (hc_header _))) eqn:E1; cbn [negb].
    + apply eqb_Sprintf_X in E1.
      destruct (String.eqb _ (Sprintf_X (hc_body _))) eqn:E2; cbn [negb].
      * apply eqb_Sprintf_X in E2. eexists; split; [reflexivity|]. verdict.
      * assert (hc_body (firstn 18 (arr buf)) <> expected_body)
          by (intros E; apply eqb_Sprintf_X in E; congruence).
        eexists; split; [reflexivity|]. verdict.
    + assert (hc_header (firstn 18 (arr buf)) <> expected_header)
          by (intros E; apply eqb_Sprintf_X in E; congruence).
      eexists; split; [reflexivity|]. verdict.
  - eexists; split; [reflexivity|]. unfold check_error, bytes_of.
    cbn [arr len]. verdict.
Qed.

Lemma make_bytes_30 : make_bytes 30 = Val (Slice (repeat x00 30) 30).
Proof. reflexivity. Qed.

(** Once the request was written and a response read, the persistent
    [HealthCheck] is the checks on what was read. *)
Lemma Persistent_HealthCheck_received net c w payload h c1 w1 n w2 buf readLen w3 :
  DecodeString (BuildHealthCheckRequest (Persistent.stn c)) = (payload, None) ->
  Persistent.getConnection net (c, w) = (Val (OK h), (c1, w1)) ->
  conn_Write net h payload w1 = (OK n, w2) ->
  conn_Read net h (Slice (repeat x00 30) 30) w2 = ((buf, OK readLen), w3) ->
  Persistent.HealthCheck net (c, w) = check_response buf readLen (c1, w3).
Proof.
  intros Hdec Hacq Hw Hr.
  unfold Persistent.HealthCheck, Persistent.get_stn, bind at 1. cbn [fst].
  rewrite Hdec. unfold bind at 1. rewrite Hacq.
  unfold bind at 1, io at 1. cbn [fst snd]. rewrite Hw.
  unfold bind at 1, pure at 1. rewrite make_bytes_30.
  unfold bind at 1, io at 1. cbn [fst snd]. rewrite Hr.
  reflexivity.
Qed.

Lemma Explicit_HealthCheck_received net c w payload h n w2 buf readLen w3 :
  DecodeString (BuildHealthCheckRequest (Explicit.stn c)) = (payload, None) ->
  Explicit.conn c = Some h ->
  conn_Write net h payload w = (OK n, w2) ->
  conn_Read net h (Slice (repeat x00 30) 30) w2 = ((buf, OK readLen), w3) ->
  Explicit.HealthCheck net (c, w) = check_response buf readLen (c, w3).
Proof.
  intros Hdec Hc Hw Hr.
  unfold Explicit.HealthCheck, Explicit.get_stn, bind at 1. cbn [fst].
  rewrite Hdec. unfold bind at 1, Explicit.c_conn_Write, Explicit.get_conn.
  unfold bind at 1. cbn [fst]. rewrite Hc. unfold io at 1. cbn [fst snd].
  rewrite Hw.
  unfold bind at 1, pure at 1. rewrite make_bytes_30.
  unfold bind at 1, Explicit.c_conn_Read, Explicit.get_conn.
  unfold bind at 1. cbn [fst]. rewrite Hc. unfold io at 1. cbn [fst snd].
  rewrite Hr. reflexivity.
Qed.

(** C1. On a response that was received (request decoded, connection at
    hand, request written, [readLen] bytes read into the 30-byte buffer),
    [HealthCheck] succeeds exactly when [readLen] is 18, the bytes at
    offsets 11 and 12 are [05 00] and the bytes at offsets 13 to 17 are
    [41 42 43 44 45]; otherwise it returns the error of the first check
    that fails, in the order length, header, body.  This holds for the
    persistent client, whatever connection its acquisition handed out, and
    for the explicit client in any world, on its stored connection. *)
Theorem HealthCheck_validates :
  (forall net payload h n buf readLen
          (c c1 : Persistent.client3EAlive) w0 w1 w2 w3,
      DecodeString (BuildHealthCheckRequest (Persistent.stn c))
        = (payload, None) ->
      Persistent.getConnection net (c, w0) = (Val (OK h), (c1, w1)) ->
      conn_Write net h payload w1 = (OK n, w2) ->
      conn_Read net h (Slice (repeat x00 30) 30) w2
        = ((buf, OK readLen), w3) ->
      HealthCheck_verdict readLen (firstn readLen (arr buf))
        (fst (Persistent.HealthCheck net (c, w0)))) /\
  (forall net payload h n buf readLen
          (c : Explicit.client3EAlive) w w2 w3,
      DecodeString (BuildHealthCheckRequest (Explicit.stn c))
        = (payload, None) ->
      Explicit.conn c = Some h ->
      conn_Write net h payload w = (OK n, w2) ->
      conn_Read net h (Slice (repeat x00 30) 30) w2
        = ((buf, OK readLen), w3) ->
      HealthCheck_verdict readLen (firstn readLen (arr buf))
        (fst (Explicit.HealthCheck net (c, w)))).
Proof.
  split.
  - intros net payload h n buf readLen c c1 w0 w1 w2 w3 Hdec Hacq Hw Hr.
    destruct (conn_Read_OK _ _ _ _ _ _ _ Hr)
      as (data & _ & _ & Hn & _ & Hcap & _).
    { unfold cap. cbn. lia. }
    assert (Hcap30 : cap buf = 30%nat) by (rewrite Hcap; reflexivity).
    assert (Hle : (readLen <= 30)%nat) by (rewrite Hn; cbn [len]; lia).
    rewrite (Persistent_HealthCheck_received _ _ _ _ _ _ _ _ _ _ _ _
               Hdec Hacq Hw Hr).
    destruct (check_response_verdict buf readLen (c1, w3) Hcap30 Hle)
      as (r & -> & Hv). exact Hv.
  - intros net payload h n buf readLen c w w2 w3 Hdec Hc Hw Hr.
    destruct (conn_Read_OK _ _ _ _ _ _ _ Hr)
      as (data & _ & _ & Hn & _ & Hcap & _).
    { unfold cap. cbn. lia. }
    assert (Hcap30 : cap buf = 30%nat) by (rewrite Hcap; reflexivity).
    assert (Hle : (readLen <= 30)%nat) by (rewrite Hn; cbn [len]; lia).
    rewrite (Explicit_HealthCheck_received _ _ _ _ _ _ _ _ _ _
               Hdec Hc Hw Hr).
    destruct (check_response_verdict buf readLen (c, w3) Hcap30 Hle)
      as (r & -> & Hv). exact Hv.
Qed.

Lemma HealthCheck_validates_witness :
  fst (Persistent.HealthCheck (calm_net good_answer)
         (stored0 good_station, one_open)) = Val None /\
  fst (Explicit.HealthCheck (calm_net good_answer)
         (connected0 good_station, second_call_world)) = Val None.
Proof.
  destruct HealthCheck_validates as [HP HE].
  split.
  - edestruct (HP (calm_net good_answer) [x50; x00] 0%nat 2%nat
                 (Slice (good_answer ++ repeat x00 12) 30) 18%nat
                 (stored0 good_station) (stored0 good_station) one_open
                 (log (EvWrite 0%nat []) one_open))
      as [[_ H] _];
      [vm_compute; reflexivity .. | apply H; repeat split; reflexivity].
  - edestruct (HE (calm_net good_answer) [x50; x00] 0%nat 2%nat
                 (Slice (good_answer ++ repeat x00 12) 30) 18%nat
                 (connected0 good_station) second_call_world)
      as [[_ H] _];
      [vm_compute; reflexivity .. | apply H; repeat split; reflexivity].
Defined.

Lemma bytes_eq_dec (a b : list byte) : {a = b} + {a <> b}.
Proof. apply list_eq_dec, Byte.byte_eq_dec. Qed.

(** An error answered under [HealthCheck_verdict] is the error of a failed
    check. *)
Lemma verdict_carries (readLen : nat) (resp : list byte)
    (r : res (option error)) (e : error) :
  HealthCheck_verdict readLen resp r ->
  r = Val (Some e) ->
  carries_received readLen resp e.
Proof.
  intros (Hok & Hlen & Hhdr & Hbody) ->. unfold carries_received.
  destruct (Nat.eq_dec readLen 18) as [E18|N18].
  - destruct (bytes_eq_dec (hc_header resp) expected_header) as [Eh|Nh].
    + destruct (bytes_eq_dec (hc_body resp) expected_body) as [Eb|Nb].
      * assert (Val (Some e) = Val None) by (apply Hok; auto). discriminate.
      * right; right. specialize (Hbody E18 Eh Nb). inversion Hbody. auto.
    + right; left. specialize (Hhdr E18 Nh). inversion Hhdr. auto.
  - left. specialize (Hlen N18). inversion Hlen. auto.
Qed.

(** The persistent [HealthCheck] on a received response: its answer obeys
    the verdict, and client and world are left as they were after the
    read. *)
Lemma Persistent_HealthCheck_outcome net c w payload h c1 w1 n w2 buf readLen w3 :
  DecodeString (BuildHealthCheckRequest (Persistent.stn c)) = (payload, None) ->
  Persistent.getConnection net (c, w) = (Val (OK h), (c1, w1)) ->
  conn_Write net h payload w1 = (OK n, w2) ->
  conn_Read net h (Slice (repeat x00 30) 30) w2 = ((buf, OK readLen), w3) ->
  exists r,
    Persistent.HealthCheck net (c, w) = (r, (c1, w3)) /\
    HealthCheck_verdict readLen (firstn readLen (arr buf)) r.
Proof.
  intros Hdec Hacq Hw Hr.
  destruct (conn_Read_OK _ _ _ _ _ _ _ Hr) as (data & _ & _ & Hn & _ & Hcap & _).
  { unfold cap. cbn. lia. }
  assert (Hcap30 : cap buf = 30%nat) by (rewrite Hcap; reflexivity).
  assert (Hle : (readLen <= 30)%nat) by (rewrite Hn; cbn [len]; lia).
  rewrite (Persistent_HealthCheck_received _ _ _ _ _ _ _ _ _ _ _ _
             Hdec Hacq Hw Hr).
  apply check_response_verdict; assumption.
Qed.

Lemma Explicit_HealthCheck_outcome net c w payload h n w2 buf readLen w3 :
  DecodeString (BuildHealthCheckRequest (Explicit.stn c)) = (payload, None) ->
  Explicit.conn c = Some h ->
  conn_Write net h payload w = (OK n, w2) ->
  conn_Read net h (Slice (repeat x00 30) 30) w2 = ((buf, OK readLen), w3) ->
  exists r,
    Explicit.HealthCheck net (c, w) = (r, (c, w3)) /\
    HealthCheck_verdict readLen (firstn readLen (arr buf)) r.
Proof.
  intros Hdec Hc Hw Hr.
  destruct (conn_Read_OK _ _ _ _ _ _ _ Hr) as (data & _ & _ & Hn & _ & Hcap & _).
  { unfold cap. cbn. lia. }
  assert (Hcap30 : cap buf = 30%nat) by (rewrite Hcap; reflexivity).
  assert (Hle : (readLen <= 30)%nat) by (rewrite Hn; cbn [len]; lia).
  rewrite (Explicit_HealthCheck_received _ _ _ _ _ _ _ _ _ _ Hdec Hc Hw Hr).
  apply check_response_verdict; assumption.
Qed.

(** C8. Every error [HealthCheck] answers on a received response carries
    the bytes received, printed in hex: the length error all of them, the
    header error the two header bytes, the body error the five body
    bytes.  This holds for the persistent client, whatever connection its
    acquisition handed out, and for the explicit client in any world. *)
Theorem HealthCheck_error_carries_bytes :
  (forall net payload h n buf readLen
          (c c1 : Persistent.client3EAlive) w0 w1 w2 w3 e,
      DecodeString (BuildHealthCheckRequest (Persistent.stn c))
        = (payload, None) ->
      Persistent.getConnection net (c, w0) = (Val (OK h), (c1, w1)) ->
      conn_Write net h payload w1 = (OK n, w2) ->
      conn_Read net h (Slice (repeat x00 30) 30) w2
        = ((buf, OK readLen), w3) ->
      fst (Persistent.HealthCheck net (c, w0)) = Val (Some e) ->
      carries_received readLen (firstn readLen (arr buf)) e) /\
  (forall net payload h n buf readLen
          (c : Explicit.client3EAlive) w w2 w3 e,
      DecodeString (BuildHealthCheckRequest (Explicit.stn c))
        = (payload, None) ->
      Explicit.conn c = Some h ->
      conn_Write net h payload w = (OK n, w2) ->
      conn_Read net h (Slice (repeat x00 30) 30) w2
        = ((buf, OK readLen), w3) ->
      fst (Explicit.HealthCheck net (c, w)) = Val (Some e) ->
      carries_received readLen (firstn readLen (arr buf)) e).
Proof.
  split.
  - intros net payload h n buf readLen c c1 w0 w1 w2 w3 e Hdec Hacq Hw Hr.
    destruct (Persistent_HealthCheck_outcome _ _ _ _ _ _ _ _ _ _ _ _
                Hdec Hacq Hw Hr) as (r & -> & Hv).
    cbn [fst]. now apply verdict_carries.
  - intros net payload h n buf readLen c w w2 w3 e Hdec Hc Hw Hr.
    destruct (Explicit_HealthCheck_outcome _ _ _ _ _ _ _ _ _ _
                Hdec Hc Hw Hr) as (r & -> & Hv).
    cbn [fst]. now apply verdict_carries.
Qed.

Lemma HealthCheck_error_carries_bytes_witness :
  carries_received 17 (repeat x00 17)
    (errorString
       "plc connect test is fail: return length is [0000000000000000000000000000000000]") /\
  carries_received 18 (repeat x00 18)
    (errorString "plc connect test is fail: return header is [0000]").
Proof.
  destruct HealthCheck_error_carries_bytes as [HP HE].
  split.
  - apply (HP (calm_net (repeat x00 17)) [x50; x00] 0%nat 2%nat
              (Slice (repeat x00 30) 30) 17%nat
              (stored0 good_station) (stored0 good_station) one_open
              (log (EvWrite 0%nat []) one_open)
              (log (EvWrite 0%nat [x50; x00])
                 (log (EvWrite 0%nat []) one_open))
              (log (EvRead 0%nat 30)
                 (log (EvWrite 0%nat [x50; x00])
                    (log (EvWrite 0%nat []) one_open))));
      vm_compute; reflexivity.
  - apply (HE (calm_net (repeat x00 18)) [x50; x00] 0%nat 2%nat
              (Slice (repeat x00 30) 30) 18%nat
              (connected0 good_station) second_call_world
              (log (EvWrite 0%nat [x50; x00]) second_call_world)
              (log (EvRead 0%nat 30)
                 (log (EvWrite 0%nat [x50; x00]) second_call_world)));
      vm_compute; reflexivity.
Defined.

(** C10. When the persistent [HealthCheck] fails a check on a received
    response, the client is left as the acquisition left it: the acquired
    connection is still stored and was not closed, the only calls made after
    the acquisition are the write and the read, and a next acquisition whose
    probe succeeds hands out the same connection without dialing.  If the
    acquired connection was the one stored before the call, the client is
    exactly as before the call. *)
Theorem HealthCheck_validation_failure_keeps_connection :
  forall net payload h n buf readLen
         (c c1 : Persistent.client3EAlive) w0 w1 w2 w3,
    DecodeString (BuildHealthCheckRequest (Persistent.stn c))
      = (payload, None) ->
    Persistent.getConnection net (c, w0) = (Val (OK h), (c1, w1)) ->
    conn_Write net h payload w1 = (OK n, w2) ->
    conn_Read net h (Slice (repeat x00 30) 30) w2 = ((buf, OK readLen), w3) ->
    let resp := firstn readLen (arr buf) in
    ~ (readLen = 18%nat /\ hc_header resp = expected_header /\
       hc_body resp = expected_body) ->
    exists e,
      Persistent.HealthCheck net (c, w0) = (Val (Some e), (c1, w3)) /\
      carries_received readLen resp e /\
      Persistent.conn c1 = Some h /\
      is_closed w3 h = false /\
      closed w3 = closed w1 /\
      trace w3 = EvRead h 30 :: EvWrite h payload :: trace w1 /\
      (Persistent.conn c = Some h -> c1 = c) /\
      (forall n' w4,
          conn_Write net h [] w3 = (OK n', w4) ->
          Persistent.getConnection net (c1, w3) = (Val (OK h), (c1, w4)) /\
          dialed w4 = dialed w3).
Proof.
  intros net payload h n buf readLen c c1 w0 w1 w2 w3 Hdec Hacq Hw Hr resp Hbad.
  destruct (Persistent_HealthCheck_outcome _ _ _ _ _ _ _ _ _ _ _ _
              Hdec Hacq Hw Hr) as (r & Hrun & Hv).
  fold resp in Hv.
  destruct (getConnection_OK _ _ _ _ _ _ Hacq) as (Hc1 & Hmu1 & Hst & Ha & Hmu).
  destruct (conn_Read_OK _ _ _ _ _ _ _ Hr) as (data & _ & Hopen & _).
  { unfold cap. cbn. lia. }
  pose proof (conn_Read_world _ _ _ _ _ _ _ Hr) as Hw3.
  pose proof (conn_Write_world _ _ _ _ _ _ Hw) as Hw2.
  assert (Hr' : exists e, r = Val (Some e)).
  { destruct Hv as (Hok & Hlen & Hhdr & Hbody).
    destruct (Nat.eq_dec readLen 18) as [E18|N18]; [|eauto].
    destruct (bytes_eq_dec (hc_header resp) expected_header) as [Eh|Nh]; [|eauto].
    destruct (bytes_eq_dec (hc_body resp) expected_body) as [Eb|Nb]; [|eauto].
    exfalso. apply Hbad. auto. }
  destruct Hr' as (e & ->). exists e.
  split; [exact Hrun|].
  split; [eapply verdict_carries; eauto|].
  split; [exact Hc1|].
  split; [subst w3; exact Hopen|].
  split; [subst w3 w2; reflexivity|].
  split; [subst w3 w2; reflexivity|].
  split.
  - intros Hc. destruct c as [cn a st m], c1 as [cn1 a1 st1 m1].
    cbn in *. congruence.
  - intros n' w4 Hp.
    split; [now apply (getConnection_probe_ok net c1 w3 h n' w4)|].
    apply conn_Write_world in Hp. now subst w4.
Qed.

Lemma HealthCheck_validation_failure_keeps_connection_witness :
  exists e,
    Persistent.HealthCheck (calm_net (repeat x00 17))
      (stored0 good_station, one_open) =
      (Val (Some e),
       (stored0 good_station,
        MkWorld [EvRead 0%nat 30; EvWrite 0%nat [x50; x00];
                 EvWrite 0%nat []; EvDial plc] 1 [])).
Proof.
  edestruct (HealthCheck_validation_failure_keeps_connection
               (calm_net (repeat x00 17)) [x50; x00] 0%nat 2%nat
               (Slice (repeat x00 30) 30) 17%nat
               (stored0 good_station) (stored0 good_station) one_open
               (log (EvWrite 0%nat []) one_open))
    as (e & E & _);
    [vm_compute; reflexivity .. | | exists e; exact E].
  intros (E & _). discriminate E.
Defined.

(** ** When the frame does not decode *)

(** C6. In both clients, when the frame the station returned does not
    decode, [HealthCheck], [Read], [BitRead] and [Write] return the
    decoding error and leave client and world as they were: no connection
    was acquired, nothing was written or read (the trace is unchanged) and
    the stored connection is the same. *)
Theorem decode_failure_before_io :
  forall net (cP : Persistent.client3EAlive) (cE : Explicit.client3EAlive)
         (w : World) (d : string) (o n : Z) (data : list byte),
    let sP := Persistent.stn cP in
    let sE := Explicit.stn cE in
    (forall bs e,
        DecodeString (BuildHealthCheckRequest sP) = (bs, Some e) ->
        Persistent.HealthCheck net (cP, w) = (Val (Some e), (cP, w))) /\
    (forall bs e,
        DecodeString (BuildReadRequest sP d o n) = (bs, Some e) ->
        Persistent.Read net d o n (cP, w) = (Val (Err e), (cP, w))) /\
    (forall bs e,
        DecodeString (BuildBitReadRequest sP d o n) = (bs, Some e) ->
        Persistent.BitRead net d o n (cP, w) = (Val (Err e), (cP, w))) /\
    (forall bs e,
        DecodeString (BuildWriteRequest sP d o n data) = (bs, Some e) ->
        Persistent.Write net d o n data (cP, w) = (Val (Err e), (cP, w))) /\
    (forall bs e,
        DecodeString (BuildHealthCheckRequest sE) = (bs, Some e) ->
        Explicit.HealthCheck net (cE, w) = (Val (Some e), (cE, w))) /\
    (forall bs e,
        DecodeString (BuildReadRequest sE d o n) = (bs, Some e) ->
        Explicit.Read net d o n (cE, w) = (Val (Err e), (cE, w))) /\
    (forall bs e,
        DecodeString (BuildBitReadRequest sE d o n) = (bs, Some e) ->
        Explicit.BitRead net d o n (cE, w) = (Val (Err e), (cE, w))) /\
    (forall bs e,
        DecodeString (BuildWriteRequest sE d o n data) = (bs, Some e) ->
        Explicit.Write net d o n data (cE, w) = (Val (Err e), (cE, w))).
Proof.
  intros net cP cE w d o n data sP sE. subst sP sE.
  repeat split; intros bs e Hdec.
  - unfold Persistent.HealthCheck, Persistent.get_stn, bind at 1.
    cbn [fst]. rewrite Hdec. reflexivity.
  - unfold Persistent.Read, Persistent.get_stn, bind at 1.
    cbn [fst]. rewrite Hdec. reflexivity.
  - unfold Persistent.BitRead, Persistent.get_stn, bind at 1.
    cbn [fst]. rewrite Hdec. reflexivity.
  - unfold Persistent.Write, Persistent.get_stn, bind at 1.
    cbn [fst]. rewrite Hdec. reflexivity.
  - unfold Explicit.HealthCheck, Explicit.get_stn, bind at 1.
    cbn [fst]. rewrite Hdec. reflexivity.
  - unfold Explicit.Read, Explicit.get_stn, bind at 1.
    cbn [fst]. rewrite Hdec. reflexivity.
  - unfold Explicit.BitRead, Explicit.get_stn, bind at 1.
    cbn [fst]. rewrite Hdec. reflexivity.
  - unfold Explicit.Write, Explicit.get_stn, bind at 1.
    cbn [fst]. rewrite Hdec. reflexivity.
Qed.

Lemma decode_failure_before_io_witness :
  Persistent.Read (calm_net good_answer) "D100" 0 10
      (stored0 odd_station, one_open) =
    (Val (Err ErrLength), (stored0 odd_station, one_open)) /\
  Explicit.HealthCheck (calm_net good_answer)
      (connected0 odd_station, one_open) =
    (Val (Some ErrLength), (connected0 odd_station, one_open)).
Proof.
  destruct (decode_failure_before_io (calm_net good_answer)
              (stored0 odd_station) (connected0 odd_station) one_open
              "D100" 0 10 [])
    as (_ & HR & _ & _ & HH & _).
  split.
  - apply (HR [x50]). reflexivity.
  - apply (HH [x50]). reflexivity.
Defined.

(** ** Failed writes and reads in the persistent client *)

(** The four lines run after a failed call: with the mutex free and [h]
    stored, they close [h], drop it and free the mutex again. *)
Lemma teardown_run {A : Type} net (c1 : Persistent.client3EAlive)
    (w2 : World) (h : handle) (v : A) :
  Persistent.conn c1 = Some h ->
  Persistent.mu c1 = false ->
  torn_down
    (bind Persistent.mu_Lock (fun _ =>
     bind (Persistent.c_conn_Close net) (fun _ =>
     bind (Persistent.set_conn None) (fun _ =>
     bind Persistent.mu_Unlock (fun _ => ret v)))) (c1, w2))
    v h (EvClose h :: trace w2).
Proof.
  destruct c1 as [cn a st m]. cbn. intros -> ->.
  unfold torn_down. run_persistent.
  destruct (conn_Close net h w2) as [ce w'] eqn:Hcl. cbn.
  destruct (conn_Close_world _ _ _ _ _ Hcl) as (Ht & _ & Hc & _).
  auto.
Qed.

Lemma Persistent_Read_exchange net d o n c w :
  Persistent.Read net d o n (c, w) =
  Persistent.exchange net (BuildReadRequest (Persistent.stn c) d o n)
    (add64 22 (mul64 2 n)) (c, w).
Proof. reflexivity. Qed.

Lemma Persistent_BitRead_exchange net d o n c w :
  Persistent.BitRead net d o n (c, w) =
  Persistent.exchange net (BuildBitReadRequest (Persistent.stn c) d o n)
    (add64 22 (mul64 2 n)) (c, w).
Proof. reflexivity. Qed.

Lemma Persistent_Write_exchange net d o n data c w :
  Persistent.Write net d o n data (c, w) =
  Persistent.exchange net (BuildWriteRequest (Persistent.stn c) d o n data)
    22 (c, w).
Proof. reflexivity. Qed.

Lemma Persistent_exchange_io_failure net c w h c1 w1 req bufLen payload :
  Persistent.getConnection net (c, w) = (Val (OK h), (c1, w1)) ->
  DecodeString req = (payload, None) ->
  io_failure_spec net h w1 payload bufLen Err
    (Persistent.exchange net req bufLen (c, w)).
Proof.
  intros Hacq Hdec.
  destruct (getConnection_OK _ _ _ _ _ _ Hacq) as (Hc1 & Hmu1 & _).
  unfold Persistent.exchange. rewrite Hdec. unfold bind at 1. rewrite Hacq.
  split.
  - intros e w2 Hw. unfold bind at 1, io at 1. cbn [fst snd]. rewrite Hw.
    replace (EvWrite h payload :: trace w1) with (trace w2)
      by (apply conn_Write_world in Hw; subst w2; reflexivity).
    now apply teardown_run.
  - intros n w2 b b' e w3 Hw Hmk Hr.
    unfold bind at 1, io at 1. cbn [fst snd]. rewrite Hw.
    unfold bind at 1, pure at 1. rewrite Hmk.
    unfold bind at 1, io at 1. cbn [fst snd]. rewrite Hr.
    apply conn_Write_world in Hw. apply conn_Read_world in Hr.
    replace (EvRead h (len b) :: EvWrite h payload :: trace w1)
      with (trace w3) by (subst w3 w2; reflexivity).
    now apply teardown_run.
Qed.

Lemma Persistent_HealthCheck_io_failure net c w h c1 w1 payload :
  Persistent.getConnection net (c, w) = (Val (OK h), (c1, w1)) ->
  DecodeString (BuildHealthCheckRequest (Persistent.stn c)) = (payload, None) ->
  io_failure_spec net h w1 payload 30 Some (Persistent.HealthCheck net (c, w)).
Proof.
  intros Hacq Hdec.
  destruct (getConnection_OK _ _ _ _ _ _ Hacq) as (Hc1 & Hmu1 & _).
  unfold Persistent.HealthCheck, Persistent.get_stn, bind at 1. cbn [fst].
  rewrite Hdec. unfold bind at 1. rewrite Hacq.
  split.
  - intros e w2 Hw. unfold bind at 1, io at 1. cbn [fst snd]. rewrite Hw.
    replace (EvWrite h payload :: trace w1) with (trace w2)
      by (apply conn_Write_world in Hw; subst w2; reflexivity).
    now apply teardown_run.
  - intros n w2 b b' e w3 Hw Hmk Hr.
    unfold bind at 1, io at 1. cbn [fst snd]. rewrite Hw.
    unfold bind at 1, pure at 1. rewrite Hmk.
    unfold bind at 1, io at 1. cbn [fst snd]. rewrite Hr.
    apply conn_Write_world in Hw. apply conn_Read_world in Hr.
    replace (EvRead h (len b) :: EvWrite h payload :: trace w1)
      with (trace w3) by (subst w3 w2; reflexivity).
    now apply teardown_run.
Qed.

(** With nothing stored and the mutex free, [getConnection] goes straight
    to the dial. *)
Lemma getConnection_absent net c w :
  Persistent.conn c = None ->
  Persistent.mu c = false ->
  trace (snd (snd (Persistent.getConnection net (c, w)))) =
    EvDial (Persistent.tcpAddr c) :: trace w.
Proof.
  destruct c as [cn a st m]. cbn. intros -> ->. run_persistent.
  unfold DialTCP. destruct (dial_answer net (trace w) a); reflexivity.
Qed.

(** C3. In the persistent client, once a connection [h] was acquired, a
    failing write or a failing read inside [HealthCheck], [Read], [BitRead]
    or [Write] closes [h] and leaves no connection stored, and the method
    returns the error of that write or read; the request was written once
    and read at most once.  With no connection stored, the next acquisition
    starts with a dial. *)
Theorem io_failure_tears_down :
  forall net (c c1 : Persistent.client3EAlive) (w w1 : World) (h : handle),
    Persistent.getConnection net (c, w) = (Val (OK h), (c1, w1)) ->
    let st := Persistent.stn c in
    (forall payload,
        DecodeString (BuildHealthCheckRequest st) = (payload, None) ->
        io_failure_spec net h w1 payload 30 Some
          (Persistent.HealthCheck net (c, w))) /\
    (forall d o n payload,
        DecodeString (BuildReadRequest st d o n) = (payload, None) ->
        io_failure_spec net h w1 payload (add64 22 (mul64 2 n)) Err
          (Persistent.Read net d o n (c, w))) /\
    (forall d o n payload,
        DecodeString (BuildBitReadRequest st d o n) = (payload, None) ->
        io_failure_spec net h w1 payload (add64 22 (mul64 2 n)) Err
          (Persistent.BitRead net d o n (c, w))) /\
    (forall d o n data payload,
        DecodeString (BuildWriteRequest st d o n data) = (payload, None) ->
        io_failure_spec net h w1 payload 22 Err
          (Persistent.Write net d o n data (c, w))) /\
    (forall c' w',
        Persistent.conn c' = None ->
        Persistent.mu c' = false ->
        trace (snd (snd (Persistent.getConnection net (c', w')))) =
          EvDial (Persistent.tcpAddr c') :: trace w').
Proof.
  intros net c c1 w w1 h Hacq st. subst st.
  split; [|split; [|split; [|split]]]; intros;
    [| | | | now apply getConnection_absent].
  - now apply (Persistent_HealthCheck_io_failure _ _ _ _ c1).
  - rewrite Persistent_Read_exchange.
    now apply (Persistent_exchange_io_failure _ _ _ _ c1).
  - rewrite Persistent_BitRead_exchange.
    now apply (Persistent_exchange_io_failure _ _ _ _ c1).
  - rewrite Persistent_Write_exchange.
    now apply (Persistent_exchange_io_failure _ _ _ _ c1).
Qed.

Lemma io_failure_tears_down_witness :
  torn_down
    (Persistent.Read write_fails_net "D100" 0 10
       (stored0 good_station, one_open))
    (Err (OpError 2)) 0%nat
    [EvClose 0%nat; EvWrite 0%nat [x50; x00]; EvWrite 0%nat []; EvDial plc] /\
  torn_down
    (Persistent.HealthCheck read_fails_net (stored0 good_station, one_open))
    (Some (OpError 3)) 0%nat
    [EvClose 0%nat; EvRead 0%nat 30; EvWrite 0%nat [x50; x00];
     EvWrite 0%nat []; EvDial plc].
Proof.
  split.
  - destruct (io_failure_tears_down write_fails_net
                (stored0 good_station) (stored0 good_station)
                one_open (log (EvWrite 0%nat []) one_open) 0%nat eq_refl)
      as (_ & HR & _).
    destruct (HR "D100"%string 0 10 [x50; x00] eq_refl) as [Hw _].
    exact (Hw (OpError 2) _ eq_refl).
  - destruct (io_failure_tears_down read_fails_net
                (stored0 good_station) (stored0 good_station)
                one_open (log (EvWrite 0%nat []) one_open) 0%nat eq_refl)
      as (HH & _).
    destruct (HH [x50; x00] eq_refl) as [_ Hr].
    exact (Hr 2%nat _ (Slice (repeat x00 30) 30) (Slice (repeat x00 30) 30)
              (OpError 3) _ eq_refl eq_refl eq_refl).
Defined.

(** ** Reading the answer of [Read], [BitRead] and [Write] *)

Lemma wrap64_id (z : Z) : is_int64 z -> wrap64 z = z.
Proof.
  unfold is_int64, int64_min, int64_max, wrap64. intros H.
  rewrite Z.mod_small; lia.
Qed.

(** Within [int64] the buffer length is computed without wrapping. *)
Lemma buffer_length_exact (numPoints : Z) :
  0 <= numPoints -> 22 + 2 * numPoints <= int64_max ->
  add64 22 (mul64 2 numPoints) = 22 + 2 * numPoints.
Proof.
  intros H0 Hmax. unfold add64, mul64.
  rewrite (wrap64_id (2 * numPoints)).
  - apply wrap64_id. unfold is_int64, int64_min, int64_max in *. lia.
  - unfold is_int64, int64_min, int64_max in *. lia.
Qed.

Lemma Explicit_Read_exchange net d o n c w :
  Explicit.Read net d o n (c, w) =
  Explicit.exchange net (BuildReadRequest (Explicit.stn c) d o n)
    (add64 22 (mul64 2 n)) (c, w).
Proof. reflexivity. Qed.

Lemma Explicit_BitRead_exchange net d o n c w :
  Explicit.BitRead net d o n (c, w) =
  Explicit.exchange net (BuildBitReadRequest (Explicit.stn c) d o n)
    (add64 22 (mul64 2 n)) (c, w).
Proof. reflexivity. Qed.

Lemma Explicit_Write_exchange net d o n data c w :
  Explicit.Write net d o n data (c, w) =
  Explicit.exchange net (BuildWriteRequest (Explicit.stn c) d o n data)
    22 (c, w).
Proof. reflexivity. Qed.

(** A successful read into a freshly made buffer: what the method returns
    from it. *)
Lemma read_into_fresh net h (size : nat) w2 b' readLen w3 :
  conn_Read net h (Slice (repeat x00 size) size) w2 = ((b', OK readLen), w3) ->
  slice_to b' readLen = Val (Slice (arr b') readLen) /\
  (readLen <= size)%nat /\ cap b' = size /\
  trace w3 = EvRead h size :: trace w2.
Proof.
  intros Hr.
  destruct (conn_Read_OK _ _ _ _ _ _ _ Hr) as (data & _ & _ & Hn & _ & Hcap & _).
  { unfold cap. cbn. rewrite repeat_length. lia. }
  assert (Hc : cap b' = size)
    by (rewrite Hcap; unfold cap; cbn; apply repeat_length).
  assert (Hle : (readLen <= size)%nat) by (rewrite Hn; cbn [len]; lia).
  apply conn_Read_world in Hr. subst w3.
  unfold slice_to. rewrite Hc.
  destruct (Nat.leb_spec readLen size); [auto | lia].
Qed.

Lemma Persistent_exchange_sized net c w req bufLen payload h c1 w1 n w2 :
  0 <= bufLen <= maxAlloc ->
  DecodeString req = (payload, None) ->
  Persistent.getConnection net (c, w) = (Val (OK h), (c1, w1)) ->
  conn_Write net h payload w1 = (OK n, w2) ->
  sized_read_spec net h w2 c1 (Z.to_nat bufLen)
    (Persistent.exchange net req bufLen (c, w)).
Proof.
  intros Hpos Hdec Hacq Hw b' readLen w3 Hr.
  destruct (read_into_fresh _ _ _ _ _ _ _ Hr) as (Hs & Hle & Hc & Ht).
  unfold Persistent.exchange. rewrite Hdec. unfold bind at 1. rewrite Hacq.
  unfold bind at 1, io at 1. cbn [fst snd]. rewrite Hw.
  unfold bind at 1, pure at 1. rewrite (make_bytes_Val _ Hpos).
  unfold bind at 1, io at 1. cbn [fst snd]. rewrite Hr.
  unfold bind at 1, pure at 1. rewrite Hs.
  eexists; split; [reflexivity|]. unfold bytes_of, cap in *. cbn. auto.
Qed.

Lemma Explicit_exchange_sized net c w req bufLen payload h n w2 :
  0 <= bufLen <= maxAlloc ->
  DecodeString req = (payload, None) ->
  Explicit.conn c = Some h ->
  conn_Write net h payload w = (OK n, w2) ->
  sized_read_spec net h w2 c (Z.to_nat bufLen)
    (Explicit.exchange net req bufLen (c, w)).
Proof.
  intros Hpos Hdec Hc Hw b' readLen w3 Hr.
  destruct (read_into_fresh _ _ _ _ _ _ _ Hr) as (Hs & Hle & Hcap & Ht).
  unfold Explicit.exchange. rewrite Hdec.
  unfold bind at 1, Explicit.c_conn_Write, Explicit.get_conn.
  unfold bind at 1. cbn [fst]. rewrite Hc. unfold io at 1. cbn [fst snd].
  rewrite Hw.
  unfold bind at 1, pure at 1. rewrite (make_bytes_Val _ Hpos).
  unfold bind at 1, Explicit.c_conn_Read, Explicit.get_conn.
  unfold bind at 1. cbn [fst]. rewrite Hc. unfold io at 1. cbn [fst snd].
  rewrite Hr.
  unfold bind at 1, pure at 1. rewrite Hs.
  eexists; split; [reflexivity|]. unfold bytes_of, cap in *. cbn. auto.
Qed.

(** C4 (as amended).  For [numPoints >= 0] with [22 + 2*numPoints] no
    larger than the allocator limit [maxAlloc], [Read] and [BitRead] of
    either client read once into a buffer of exactly [22 + 2*numPoints]
    bytes, and return the first [readLen] bytes of it, where [readLen] is
    what that read reported: the returned slice has length [readLen], which
    is at most the capacity [22 + 2*numPoints].  The persistent client
    reads on the connection its acquisition handed out, the explicit client
    on its stored connection, in any world. *)
Theorem Read_buffer_size :
  forall net (d : string) (o numPoints : Z),
    0 <= numPoints ->
    22 + 2 * numPoints <= maxAlloc ->
    let size := response_size numPoints in
    Z.of_nat size = 22 + 2 * numPoints /\
    (forall h (c c1 : Persistent.client3EAlive) w0 w1 payload n w2,
        Persistent.getConnection net (c, w0) = (Val (OK h), (c1, w1)) ->
        DecodeString (BuildReadRequest (Persistent.stn c) d o numPoints)
          = (payload, None) ->
        conn_Write net h payload w1 = (OK n, w2) ->
        sized_read_spec net h w2 c1 size
          (Persistent.Read net d o numPoints (c, w0))) /\
    (forall h (c c1 : Persistent.client3EAlive) w0 w1 payload n w2,
        Persistent.getConnection net (c, w0) = (Val (OK h), (c1, w1)) ->
        DecodeString (BuildBitReadRequest (Persistent.stn c) d o numPoints)
          = (payload, None) ->
        conn_Write net h payload w1 = (OK n, w2) ->
        sized_read_spec net h w2 c1 size
          (Persistent.BitRead net d o numPoints (c, w0))) /\
    (forall h (c : Explicit.client3EAlive) w payload n w2,
        Explicit.conn c = Some h ->
        DecodeString (BuildReadRequest (Explicit.stn c) d o numPoints)
          = (payload, None) ->
        conn_Write net h payload w = (OK n, w2) ->
        sized_read_spec net h w2 c size
          (Explicit.Read net d o numPoints (c, w))) /\
    (forall h (c : Explicit.client3EAlive) w payload n w2,
        Explicit.conn c = Some h ->
        DecodeString (BuildBitReadRequest (Explicit.stn c) d o numPoints)
          = (payload, None) ->
        conn_Write net h payload w = (OK n, w2) ->
        sized_read_spec net h w2 c size
          (Explicit.BitRead net d o numPoints (c, w))).
Proof.
  intros net d o numPoints H0 Hmax size.
  pose proof maxAlloc_int64 as Hm.
  assert (Hmax' : 22 + 2 * numPoints <= int64_max) by lia.
  pose proof (buffer_length_exact numPoints H0 Hmax') as Hlen.
  assert (Hpos : 0 <= add64 22 (mul64 2 numPoints) <= maxAlloc) by lia.
  assert (Hsize : size = Z.to_nat (add64 22 (mul64 2 numPoints)))
    by (unfold size, response_size; now rewrite Hlen).
  split; [unfold size, response_size; lia|].
  rewrite Hsize.
  split; [|split; [|split]].
  - intros h c c1 w0 w1 payload n w2 Hacq Hdec Hw.
    rewrite Persistent_Read_exchange.
    now apply (Persistent_exchange_sized _ _ _ _ _ payload h c1 w1 n).
  - intros h c c1 w0 w1 payload n w2 Hacq Hdec Hw.
    rewrite Persistent_BitRead_exchange.
    now apply (Persistent_exchange_sized _ _ _ _ _ payload h c1 w1 n).
  - intros h c w payload n w2 Hc Hdec Hw.
    rewrite Explicit_Read_exchange.
    now apply (Explicit_exchange_sized _ _ _ _ _ payload h n).
  - intros h c w payload n w2 Hc Hdec Hw.
    rewrite Explicit_BitRead_exchange.
    now apply (Explicit_exchange_sized _ _ _ _ _ payload h n).
Qed.

Lemma Read_buffer_size_witness :
  (exists o,
     Persistent.Read (calm_net ten_points_answer) "D100" 0 10
         (stored0 good_station, one_open) =
       (Val (OK o),
        (stored0 good_station,
         MkWorld [EvRead 0%nat 42; EvWrite 0%nat [x50; x00];
                  EvWrite 0%nat []; EvDial plc] 1 [])) /\
     len o = 42%nat /\ cap o = 42%nat /\ bytes_of o = ten_points_answer) /\
  (exists o s',
     Explicit.BitRead (calm_net ten_points_answer) "D100" 0 10
         (connected0 good_station, second_call_world) = (Val (OK o), s') /\
     len o = 42%nat /\ cap o = 42%nat /\ bytes_of o = ten_points_answer).
Proof.
  destruct (Read_buffer_size (calm_net ten_points_answer) "D100" 0 10)
    as (_ & HR & _ & _ & HB);
    [vm_compute; discriminate | vm_compute; discriminate |].
  split.
  - destruct (HR 0%nat (stored0 good_station) (stored0 good_station)
                one_open (log (EvWrite 0%nat []) one_open)
                [x50; x00] 2%nat _ eq_refl eq_refl eq_refl
                (Slice ten_points_answer 42) 42%nat _ eq_refl)
      as (out & E & Hl & _ & Hc & Hb & _).
    exists out. repeat split; assumption.
  - destruct (HB 0%nat (connected0 good_station) second_call_world
                [x50; x00] 2%nat _ eq_refl eq_refl eq_refl
                (Slice ten_points_answer 42) 42%nat _ eq_refl)
      as (out & E & Hl & _ & Hc & Hb & _).
    exists out. eexists. repeat split; eassumption.
Defined.

(** C4, as stated, fails for large [numPoints].  For [numPoints = 2^63 - 1]
    the product wraps to [-2], the buffer [Read] makes has 20 bytes, and 20
    of the 42 bytes that arrived are returned.  For [numPoints = 2^48],
    where nothing wraps, the length is above the allocator limit: no buffer
    is made and [Read] panics. *)
Lemma Read_buffer_size_wraps :
  (0 <= 2 ^ 63 - 1 <= int64_max /\
   exists o s',
     Persistent.Read (calm_net ten_points_answer) "D100" 0 (2 ^ 63 - 1)
         (stored0 good_station, one_open) = (Val (OK o), s') /\
     cap o = 20%nat /\ len o = 20%nat /\
     trace (snd s') = [EvRead 0%nat 20; EvWrite 0%nat [x50; x00];
                       EvWrite 0%nat []; EvDial plc] /\
     Z.of_nat (cap o) <> 22 + 2 * (2 ^ 63 - 1)) /\
  (0 <= 2 ^ 48 /\ 22 + 2 * 2 ^ 48 <= int64_max /\
   fst (Persistent.Read (calm_net ten_points_answer) "D100" 0 (2 ^ 48)
          (stored0 good_station, one_open)) = Panic MakeSliceLen).
Proof.
  split.
  - split; [vm_compute; split; discriminate|].
    do 2 eexists. split; [vm_compute; reflexivity|].
    repeat split. vm_compute. discriminate.
  - split; [vm_compute; discriminate|].
    split; [vm_compute; discriminate|].
    vm_compute. reflexivity.
Qed.

(** ** What a successful exchange returns *)

(** A returned slice came out of one read into the buffer made for it: it
    is no longer than that buffer and has its capacity. *)
Lemma read_result_bounded net h b w2 b' readLen w3 out :
  (len b <= cap b)%nat ->
  conn_Read net h b w2 = ((b', OK readLen), w3) ->
  slice_to b' readLen = Val out ->
  (len out <= len b)%nat /\ cap out = cap b.
Proof.
  intros Hb Hr Hs.
  destruct (conn_Read_OK _ _ _ _ _ _ _ Hr Hb) as (data & _ & _ & Hn & _ & Hcap & _).
  unfold slice_to in Hs. destruct (readLen <=? cap b')%nat; [|discriminate].
  inversion Hs; subst out. unfold cap in *. cbn. split; [lia | assumption].
Qed.

Lemma Persistent_exchange_OK_inv net req bufLen s out s' :
  Persistent.exchange net req bufLen s = (Val (OK out), s') ->
  exists b,
    make_bytes bufLen = Val b /\ (len out <= len b)%nat /\ cap out = cap b.
Proof.
  unfold Persistent.exchange.
  destruct (DecodeString req) as [payload [e|]]; [discriminate|].
  unfold bind at 1.
  destruct (Persistent.getConnection net s) as [[[h|e]|p] [c1 w1]] eqn:Hacq;
    try discriminate.
  destruct (getConnection_OK net (fst s) (snd s) h c1 w1) as (Hc1 & Hmu1 & _).
  { destruct s; exact Hacq. }
  unfold bind at 1, io at 1. cbn [fst snd].
  destruct (conn_Write net h payload w1) as [[n|e] w2] eqn:Hw.
  - unfold bind at 1, pure at 1.
    destruct (make_bytes bufLen) as [b|p] eqn:Hmk; [|discriminate].
    destruct (make_bytes_shape _ _ Hmk) as (_ & Hl & Hc).
    unfold bind at 1, io at 1. cbn [fst snd].
    destruct (conn_Read net h b w2) as [[b' [readLen|e]] w3] eqn:Hr.
    + unfold bind at 1, pure at 1.
      destruct (slice_to b' readLen) as [o|p] eqn:Hs; [|discriminate].
      intros E. inversion E; subst. exists b. split; [reflexivity|].
      eapply read_result_bounded; eauto. lia.
    + intros E.
      destruct (teardown_run net c1 w3 h (@Err slice e) Hc1 Hmu1) as (Hv & _).
      rewrite E in Hv. discriminate Hv.
  - intros E.
    destruct (teardown_run net c1 w2 h (@Err slice e) Hc1 Hmu1) as (Hv & _).
    rewrite E in Hv. discriminate Hv.
Qed.

Lemma Explicit_exchange_OK_inv net req bufLen s out s' :
  Explicit.exchange net req bufLen s = (Val (OK out), s') ->
  exists b,
    make_bytes bufLen = Val b /\ (len out <= len b)%nat /\ cap out = cap b.
Proof.
  unfold Explicit.exchange.
  destruct (DecodeString req) as [payload [e|]]; [discriminate|].
  unfold bind at 1, Explicit.c_conn_Write, Explicit.c_conn_Read,
    Explicit.get_conn.
  unfold bind at 1. destruct (Explicit.conn (fst s)) as [h|] eqn:Hc;
    [|discriminate].
  unfold io at 1. cbn [fst snd].
  destruct (conn_Write net h payload (snd s)) as [[n|e] w2] eqn:Hw;
    [|discriminate].
  unfold bind at 1, pure at 1.
  destruct (make_bytes bufLen) as [b|p] eqn:Hmk; [|discriminate].
  destruct (make_bytes_shape _ _ Hmk) as (_ & Hl & Hcap).
  unfold bind at 1. unfold bind at 1. cbn [fst]. rewrite Hc.
  unfold io at 1. cbn [fst snd].
  destruct (conn_Read net h b w2) as [[b' [readLen|e]] w3] eqn:Hr;
    [|discriminate].
  unfold bind at 1, pure at 1.
  destruct (slice_to b' readLen) as [o|p] eqn:Hs; [|discriminate].
  intros E. inversion E; subst. exists b. split; [reflexivity|].
  eapply read_result_bounded; eauto. lia.
Qed.

(** C5. Whatever the device, the offset, the number of points and the data
    to write, a [Write] of either client that succeeds returns a slice of at
    most 22 bytes, cut from a buffer of 22 bytes. *)
Theorem Write_at_most_22 :
  forall net (d : string) (o n : Z) (data : list byte),
    (forall s out s',
        Persistent.Write net d o n data s = (Val (OK out), s') ->
        (len out <= 22)%nat /\ (List.length (bytes_of out) <= 22)%nat /\
        cap out = 22%nat) /\
    (forall s out s',
        Explicit.Write net d o n data s = (Val (OK out), s') ->
        (len out <= 22)%nat /\ (List.length (bytes_of out) <= 22)%nat /\
        cap out = 22%nat).
Proof.
  intros net d o n data. split; intros [c w] out s' H.
  - rewrite Persistent_Write_exchange in H.
    destruct (Persistent_exchange_OK_inv _ _ _ _ _ _ H) as (b & Hmk & Hl & Hc).
    inversion Hmk; subst b. cbn in Hl, Hc.
    unfold bytes_of. rewrite length_firstn. repeat split; lia.
  - rewrite Explicit_Write_exchange in H.
    destruct (Explicit_exchange_OK_inv _ _ _ _ _ _ H) as (b & Hmk & Hl & Hc).
    inversion Hmk; subst b. cbn in Hl, Hc.
    unfold bytes_of. rewrite length_firstn. repeat split; lia.
Qed.

Lemma Write_at_most_22_witness :
  exists out s',
    Persistent.Write (calm_net ack_answer) "D100" 0 1 [x00; x01]
      (stored0 good_station, one_open) = (Val (OK out), s') /\
    bytes_of out = ack_answer /\
    (len out <= 22)%nat.
Proof.
  eexists (Slice ack_answer 22), _.
  assert (E : Persistent.Write (calm_net ack_answer) "D100" 0 1 [x00; x01]
                (stored0 good_station, one_open) =
              (Val (OK (Slice ack_answer 22)),
               (stored0 good_station,
                MkWorld [EvRead 0%nat 22; EvWrite 0%nat [x50; x00];
                         EvWrite 0%nat []; EvDial plc] 1 [])))
    by (vm_compute; reflexivity).
  split; [exact E|]. split; [reflexivity|].
  destruct (Write_at_most_22 (calm_net ack_answer) "D100" 0 1 [x00; x01])
    as [HP _].
  exact (proj1 (HP _ _ _ E)).
Defined.

(** ** No panic in [Read] and [BitRead] *)

Lemma run_of_fst {A S : Type} (x : res A * S) (v : A) :
  fst x = Val v -> exists v' s', x = (Val v', s').
Proof. destruct x as [r s]. cbn. intros ->. eauto. Qed.

(** With the mutex free and a buffer length that is not negative, the
    persistent exchange returns. *)
Lemma Persistent_exchange_total net req bufLen c w :
  Persistent.mu c = false -> 0 <= bufLen <= maxAlloc ->
  exists v s', Persistent.exchange net req bufLen (c, w) = (Val v, s').
Proof.
  intros Hmu Hpos. unfold Persistent.exchange.
  destruct (DecodeString req) as [payload [e|]]; [do 2 eexists; reflexivity|].
  unfold bind at 1.
  destruct (getConnection_total net c w Hmu) as (r & c1 & w1 & Hacq & Hmu1 & _).
  rewrite Hacq. destruct r as [h|e]; [|do 2 eexists; reflexivity].
  destruct (getConnection_OK _ _ _ _ _ _ Hacq) as (Hc1 & _).
  unfold bind at 1, io at 1. cbn [fst snd].
  destruct (conn_Write net h payload w1) as [[n|e] w2] eqn:Hw.
  - unfold bind at 1, pure at 1. rewrite (make_bytes_Val _ Hpos).
    unfold bind at 1, io at 1. cbn [fst snd].
    destruct (conn_Read net h _ w2) as [[b' [readLen|e]] w3] eqn:Hr.
    + destruct (read_into_fresh _ _ _ _ _ _ _ Hr) as (Hs & _).
      unfold bind at 1, pure at 1. rewrite Hs. do 2 eexists; reflexivity.
    + destruct (teardown_run net c1 w3 h (@Err slice e) Hc1 Hmu1) as (Hv & _).
      eapply run_of_fst; exact Hv.
  - destruct (teardown_run net c1 w2 h (@Err slice e) Hc1 Hmu1) as (Hv & _).
    eapply run_of_fst; exact Hv.
Qed.

(** With a connection stored and a buffer length that is not negative, the
    explicit exchange returns. *)
Lemma Explicit_exchange_total net req bufLen c w h :
  Explicit.conn c = Some h -> 0 <= bufLen <= maxAlloc ->
  exists v s', Explicit.exchange net req bufLen (c, w) = (Val v, s').
Proof.
  intros Hc Hpos. unfold Explicit.exchange.
  destruct (DecodeString req) as [payload [e|]]; [do 2 eexists; reflexivity|].
  unfold bind at 1, Explicit.c_conn_Write, Explicit.c_conn_Read,
    Explicit.get_conn.
  unfold bind at 1. cbn [fst]. rewrite Hc. unfold io at 1. cbn [fst snd].
  destruct (conn_Write net h payload w) as [[n|e] w2] eqn:Hw;
    [|do 2 eexists; reflexivity].
  unfold bind at 1, pure at 1. rewrite (make_bytes_Val _ Hpos).
  unfold bind at 1. unfold bind at 1. cbn [fst]. rewrite Hc.
  unfold io at 1. cbn [fst snd].
  destruct (conn_Read net h _ w2) as [[b' [readLen|e]] w3] eqn:Hr;
    [|do 2 eexists; reflexivity].
  destruct (read_into_fresh _ _ _ _ _ _ _ Hr) as (Hs & _).
  unfold bind at 1, pure at 1. rewrite Hs. do 2 eexists; reflexivity.
Qed.

Lemma Persistent_exchange_returns_sized net req numPoints c w :
  0 <= numPoints -> 22 + 2 * numPoints <= maxAlloc ->
  Persistent.mu c = false ->
  returns_sized numPoints
    (Persistent.exchange net req (add64 22 (mul64 2 numPoints)) (c, w)).
Proof.
  intros H0 Hmax Hmu. pose proof maxAlloc_int64 as Hm.
  assert (Hlen : add64 22 (mul64 2 numPoints) = 22 + 2 * numPoints)
    by (apply buffer_length_exact; lia).
  destruct (Persistent_exchange_total net req
              (add64 22 (mul64 2 numPoints)) c w Hmu) as (v & s' & E);
    [lia|].
  exists v, s'. split; [exact E|]. intros out ->.
  destruct (Persistent_exchange_OK_inv _ _ _ _ _ _ E) as (b & Hmk & _ & Hc).
  destruct (make_bytes_shape _ _ Hmk) as (_ & _ & Hcb). lia.
Qed.

Lemma Explicit_exchange_returns_sized net req numPoints c w h :
  0 <= numPoints -> 22 + 2 * numPoints <= maxAlloc ->
  Explicit.conn c = Some h ->
  returns_sized numPoints
    (Explicit.exchange net req (add64 22 (mul64 2 numPoints)) (c, w)).
Proof.
  intros H0 Hmax Hc. pose proof maxAlloc_int64 as Hm.
  assert (Hlen : add64 22 (mul64 2 numPoints) = 22 + 2 * numPoints)
    by (apply buffer_length_exact; lia).
  destruct (Explicit_exchange_total net req
              (add64 22 (mul64 2 numPoints)) c w h Hc) as (v & s' & E);
    [lia|].
  exists v, s'. split; [exact E|]. intros out ->.
  destruct (Explicit_exchange_OK_inv _ _ _ _ _ _ E) as (b & Hmk & _ & Hcb).
  destruct (make_bytes_shape _ _ Hmk) as (_ & _ & Hcb'). lia.
Qed.

Lemma Persistent_exchange_writes net c w req bufLen payload h c1 w1 :
  DecodeString req = (payload, None) ->
  Persistent.getConnection net (c, w) = (Val (OK h), (c1, w1)) ->
  request_written h payload w1
    (snd (Persistent.exchange net req bufLen (c, w))).
Proof.
  intros Hdec Hacq. unfold request_written.
  destruct (getConnection_OK _ _ _ _ _ _ Hacq) as (Hc1 & Hmu1 & _).
  unfold Persistent.exchange. rewrite Hdec. unfold bind at 1. rewrite Hacq.
  unfold bind at 1, io at 1. cbn [fst snd].
  destruct (conn_Write net h payload w1) as [[n|e] w2] eqn:Hw;
    apply conn_Write_world in Hw; subst w2.
  - unfold bind at 1, pure at 1.
    destruct (make_bytes bufLen) as [b|p]; [|exists []; reflexivity].
    unfold bind at 1, io at 1. cbn [fst snd].
    destruct (conn_Read net h b _) as [[b' [readLen|e]] w3] eqn:Hr;
      apply conn_Read_world in Hr; subst w3.
    + unfold bind at 1, pure at 1.
      destruct (slice_to b' readLen); exists [EvRead h (len b)]; reflexivity.
    + destruct (teardown_run net c1
                  (log (EvRead h (len b)) (log (EvWrite h payload) w1))
                  h (@Err slice e) Hc1 Hmu1) as (_ & _ & _ & _ & Ht).
      exists [EvClose h; EvRead h (len b)]. exact Ht.
  - destruct (teardown_run net c1 (log (EvWrite h payload) w1)
                h (@Err slice e) Hc1 Hmu1) as (_ & _ & _ & _ & Ht).
    exists [EvClose h]. exact Ht.
Qed.

Lemma Explicit_exchange_writes net c w req bufLen payload h :
  DecodeString req = (payload, None) ->
  Explicit.conn c = Some h ->
  request_written h payload w
    (snd (Explicit.exchange net req bufLen (c, w))).
Proof.
  intros Hdec Hc. unfold request_written.
  unfold Explicit.exchange. rewrite Hdec.
  unfold bind at 1, Explicit.c_conn_Write, Explicit.c_conn_Read,
    Explicit.get_conn.
  unfold bind at 1. cbn [fst]. rewrite Hc. unfold io at 1. cbn [fst snd].
  destruct (conn_Write net h payload w) as [[n|e] w2] eqn:Hw;
    apply conn_Write_world in Hw; subst w2; [|exists []; reflexivity].
  unfold bind at 1, pure at 1.
  destruct (make_bytes bufLen) as [b|p]; [|exists []; reflexivity].
  unfold bind at 1. unfold bind at 1. cbn [fst]. rewrite Hc.
  unfold io at 1. cbn [fst snd].
  destruct (conn_Read net h b _) as [[b' [readLen|e]] w3] eqn:Hr;
    apply conn_Read_world in Hr; subst w3;
    [|exists [EvRead h (len b)]; reflexivity].
  unfold bind at 1, pure at 1.
  destruct (slice_to b' readLen); exists [EvRead h (len b)]; reflexivity.
Qed.

(** C9 (as amended).  For [numPoints >= 0] with [22 + 2*numPoints] no
    larger than the allocator limit [maxAlloc], [Read] and [BitRead] return
    without a panic, from the buffer allocation or otherwise (the
    persistent ones when the mutex is free, the explicit ones when a
    connection is stored), and a slice they return was cut from a buffer of
    [22 + 2*numPoints] bytes: 22 bytes for [numPoints = 0], which is not
    rejected.  The request they write is the frame the station built for
    that [numPoints]. *)
Theorem Read_allocation_does_not_panic :
  forall net (d : string) (o numPoints : Z),
    0 <= numPoints ->
    22 + 2 * numPoints <= maxAlloc ->
    (forall (c : Persistent.client3EAlive) (w : World),
        Persistent.mu c = false ->
        returns_sized numPoints (Persistent.Read net d o numPoints (c, w))) /\
    (forall (c : Persistent.client3EAlive) (w : World),
        Persistent.mu c = false ->
        returns_sized numPoints
          (Persistent.BitRead net d o numPoints (c, w))) /\
    (forall (c : Explicit.client3EAlive) (w : World) (h : handle),
        Explicit.conn c = Some h ->
        returns_sized numPoints (Explicit.Read net d o numPoints (c, w))) /\
    (forall (c : Explicit.client3EAlive) (w : World) (h : handle),
        Explicit.conn c = Some h ->
        returns_sized numPoints
          (Explicit.BitRead net d o numPoints (c, w))) /\
    (forall h (c c1 : Persistent.client3EAlive) w w1 payload,
        Persistent.getConnection net (c, w) = (Val (OK h), (c1, w1)) ->
        DecodeString (BuildReadRequest (Persistent.stn c) d o numPoints)
          = (payload, None) ->
        request_written h payload w1
          (snd (Persistent.Read net d o numPoints (c, w)))) /\
    (forall h (c c1 : Persistent.client3EAlive) w w1 payload,
        Persistent.getConnection net (c, w) = (Val (OK h), (c1, w1)) ->
        DecodeString (BuildBitReadRequest (Persistent.stn c) d o numPoints)
          = (payload, None) ->
        request_written h payload w1
          (snd (Persistent.BitRead net d o numPoints (c, w)))) /\
    (forall h (c : Explicit.client3EAlive) w payload,
        Explicit.conn c = Some h ->
        DecodeString (BuildReadRequest (Explicit.stn c) d o numPoints)
          = (payload, None) ->
        request_written h payload w
          (snd (Explicit.Read net d o numPoints (c, w)))) /\
    (forall h (c : Explicit.client3EAlive) w payload,
        Explicit.conn c = Some h ->
        DecodeString (BuildBitReadRequest (Explicit.stn c) d o numPoints)
          = (payload, None) ->
        request_written h payload w
          (snd (Explicit.BitRead net d o numPoints (c, w)))).
Proof.
  intros net d o numPoints H0 Hmax.
  split; [|split; [|split; [|split; [|split; [|split; [|split]]]]]].
  - intros c w Hmu. rewrite Persistent_Read_exchange.
    now apply Persistent_exchange_returns_sized.
  - intros c w Hmu. rewrite Persistent_BitRead_exchange.
    now apply Persistent_exchange_returns_sized.
  - intros c w h Hc. rewrite Explicit_Read_exchange.
    now apply (Explicit_exchange_returns_sized _ _ _ _ _ h).
  - intros c w h Hc. rewrite Explicit_BitRead_exchange.
    now apply (Explicit_exchange_returns_sized _ _ _ _ _ h).
  - intros h c c1 w w1 payload Hacq Hdec. rewrite Persistent_Read_exchange.
    now apply (Persistent_exchange_writes _ _ _ _ _ _ _ c1).
  - intros h c c1 w w1 payload Hacq Hdec. rewrite Persistent_BitRead_exchange.
    now apply (Persistent_exchange_writes _ _ _ _ _ _ _ c1).
  - intros h c w payload Hc Hdec. rewrite Explicit_Read_exchange.
    now apply Explicit_exchange_writes.
  - intros h c w payload Hc Hdec. rewrite Explicit_BitRead_exchange.
    now apply Explicit_exchange_writes.
Qed.

Lemma Read_allocation_does_not_panic_witness :
  exists o s',
    Persistent.Read (calm_net ack_answer) "D100" 0 0
      (stored0 good_station, one_open) = (Val (OK o), s') /\
    Z.of_nat (cap o) = 22.
Proof.
  destruct (Read_allocation_does_not_panic (calm_net ack_answer) "D100" 0 0)
    as (HR & _); [vm_compute; discriminate | vm_compute; discriminate |].
  destruct (HR (stored0 good_station) one_open eq_refl)
    as (v & s' & E & Hcap).
  assert (E' : Persistent.Read (calm_net ack_answer) "D100" 0 0
                 (stored0 good_station, one_open) =
               (Val (OK (Slice ack_answer 22)),
                (stored0 good_station,
                 MkWorld [EvRead 0%nat 22; EvWrite 0%nat [x50; x00];
                          EvWrite 0%nat []; EvDial plc] 1 [])))
    by (vm_compute; reflexivity).
  exists (Slice ack_answer 22). eexists. split; [exact E'|].
  apply Hcap. rewrite E' in E. now inversion E.
Defined.

(** C9, as stated, fails for large [numPoints].  For [numPoints = 2^62]
    the product wraps to [-2^63], the length asked of [make] is negative,
    and [Read] panics after it wrote the request.  For [numPoints = 2^48],
    where nothing wraps, the length is above the allocator limit and [Read]
    panics in the same place. *)
Lemma Read_allocation_panics :
  (0 <= 2 ^ 62 <= int64_max /\
   add64 22 (mul64 2 (2 ^ 62)) = 22 - 2 ^ 63 /\
   Persistent.Read (calm_net ten_points_answer) "D100" 0 (2 ^ 62)
       (stored0 good_station, one_open) =
     (Panic MakeSliceLen,
      (stored0 good_station,
       MkWorld [EvWrite 0%nat [x50; x00]; EvWrite 0%nat []; EvDial plc]
         1 [])) /\
   fst (Explicit.BitRead (calm_net ten_points_answer) "D100" 0 (2 ^ 62)
          (connected0 good_station, one_open)) = Panic MakeSliceLen) /\
  (0 <= 2 ^ 48 <= int64_max /\
   add64 22 (mul64 2 (2 ^ 48)) = 22 + 2 * 2 ^ 48 /\
   Persistent.Read (calm_net ten_points_answer) "D100" 0 (2 ^ 48)
       (stored0 good_station, one_open) =
     (Panic MakeSliceLen,
      (stored0 good_station,
       MkWorld [EvWrite 0%nat [x50; x00]; EvWrite 0%nat []; EvDial plc]
         1 []))).
Proof.
  split.
  - split; [vm_compute; split; discriminate|].
    repeat split; vm_compute; reflexivity.
  - split; [vm_compute; split; discriminate|].
    repeat split; vm_compute; reflexivity.
Qed.

(** ** [Connect] of the explicit client *)

(** C7, the failing case.  A client that stores the open connection 0 calls
    [Connect] on a network where the dial fails: [Connect] returns the
    error of the dial, connection 0 is closed, and it is still the stored
    connection, so the invariant of the connection field, which held
    before the call, does not hold after it. *)
Theorem Connect_failed_dial_keeps_closed_connection :
  let before := (connected0 good_station, one_open) in
  let out := Explicit.Connect no_route_net before in
  conn_invariant (Explicit.conn (fst before)) (snd before) /\
  fst out = Val (Some (OpError 4)) /\
  Explicit.conn (fst (snd out)) = Some 0%nat /\
  is_closed (snd (snd out)) 0%nat = true /\
  trace (snd (snd out)) = [EvDial plc; EvClose 0%nat; EvDial plc] /\
  ~ conn_invariant (Explicit.conn (fst (snd out))) (snd (snd out)).
Proof.
  cbv zeta. repeat split.
  - vm_compute. lia.
  - intros [_ H]. vm_compute in H. discriminate H.
Qed.

(** The same for every client that stores a connection: when the dial
    fails, [Connect] has closed the stored connection and still stores it. *)
Lemma Connect_dial_failure net (c : Explicit.client3EAlive) (w : World)
    (h : handle) (e : error) :
  Explicit.conn c = Some h ->
  dial_answer net (EvClose h :: trace w) (Explicit.tcpAddr c) = Some e ->
  exists w',
    Explicit.Connect net (c, w) = (Val (Some e), (c, w')) /\
    is_closed w' h = true.
Proof.
  destruct c as [cn a st]. cbn. intros -> Hd.
  unfold Explicit.Connect. run_explicit.
  destruct (conn_Close net h w) as [ce w1] eqn:Hcl. cbn.
  destruct (conn_Close_world _ _ _ _ _ Hcl) as (Ht & _ & Hc & _).
  unfold DialTCP. rewrite Ht, Hd. cbn.
  eexists; split; [reflexivity | exact Hc].
Qed.

(** [Close] of the explicit client leaves nothing stored. *)
Lemma Explicit_Close_absent net (c : Explicit.client3EAlive) (w : World) :
  exists r s',
    Explicit.Close net (c, w) = (Val r, s') /\
    Explicit.conn (fst s') = None /\
    conn_invariant (Explicit.conn (fst s')) (snd s').
Proof.
  destruct c as [[h|] a st]; unfold Explicit.Close; run_explicit.
  - destruct (conn_Close net h w) as [ce w1]. cbn.
    do 2 eexists; repeat split.
  - do 2 eexists; repeat split.
Qed.

(* ================================================================== *)
(** * Further properties of the two clients *)

(** ** [Close] *)

(** X1.  [Close] of the persistent client with the mutex free: a stored
    connection is closed and dropped and the error of the closing is
    returned; with nothing stored nothing happens.  A second [Close] is
    always of the second kind. *)
Theorem Persistent_Close_closes_once :
  forall net (c : Persistent.client3EAlive) (w : World),
    Persistent.mu c = false ->
    let absent :=
      Persistent.Client None (Persistent.tcpAddr c) (Persistent.stn c) false in
    (forall h,
        Persistent.conn c = Some h ->
        Persistent.Close net (c, w) =
          (Val (fst (conn_Close net h w)), (absent, snd (conn_Close net h w))) /\
        is_closed (snd (conn_Close net h w)) h = true /\
        trace (snd (conn_Close net h w)) = EvClose h :: trace w) /\
    (Persistent.conn c = None ->
     Persistent.Close net (c, w) = (Val None, (c, w))) /\
    (forall r s1,
        Persistent.Close net (c, w) = (r, s1) ->
        Persistent.Close net s1 = (Val None, s1)).
Proof.
  intros net [cn a st m] w Hmu absent. cbn in Hmu. subst m absent. cbn.
  split; [|split].
  - intros h ->. unfold Persistent.Close. run_persistent.
    destruct (conn_Close net h w) as [ce w1] eqn:Hcl. cbn.
    destruct (conn_Close_world _ _ _ _ _ Hcl) as (Ht & _ & Hc & _). auto.
  - intros ->. reflexivity.
  - intros r s1. destruct cn as [h|]; unfold Persistent.Close; run_persistent.
    + destruct (conn_Close net h w) as [ce w1]. cbn.
      intros E. inversion E; subst. reflexivity.
    + intros E. inversion E; subst. reflexivity.
Qed.

Lemma Persistent_Close_closes_once_witness :
  Persistent.Close (calm_net good_answer) (stored0 good_station, one_open) =
    (Val None,
     (Persistent.New3EAliveClient plc good_station,
      MkWorld [EvClose 0%nat; EvDial plc] 1 [0%nat])).
Proof.
  destruct (Persistent_Close_closes_once (calm_net good_answer)
              (stored0 good_station) one_open eq_refl) as (H & _).
  destruct (H 0%nat eq_refl) as (E & _). exact E.
Defined.

(** X2.  [Close] of the explicit client: the same, without a mutex. *)
Theorem Explicit_Close_closes_once :
  forall net (c : Explicit.client3EAlive) (w : World),
    let absent :=
      Explicit.Client None (Explicit.tcpAddr c) (Explicit.stn c) in
    (forall h,
        Explicit.conn c = Some h ->
        Explicit.Close net (c, w) =
          (Val (fst (conn_Close net h w)), (absent, snd (conn_Close net h w))) /\
        is_closed (snd (conn_Close net h w)) h = true /\
        trace (snd (conn_Close net h w)) = EvClose h :: trace w) /\
    (Explicit.conn c = None ->
     Explicit.Close net (c, w) = (Val None, (c, w))) /\
    (forall r s1,
        Explicit.Close net (c, w) = (r, s1) ->
        Explicit.Close net s1 = (Val None, s1)).
Proof.
  intros net [cn a st] w absent. subst absent. cbn.
  split; [|split].
  - intros h ->. unfold Explicit.Close. run_explicit.
    destruct (conn_Close net h w) as [ce w1] eqn:Hcl. cbn.
    destruct (conn_Close_world _ _ _ _ _ Hcl) as (Ht & _ & Hc & _). auto.
  - intros ->. reflexivity.
  - intros r s1. destruct cn as [h|]; unfold Explicit.Close; run_explicit.
    + destruct (conn_Close net h w) as [ce w1]. cbn.
      intros E. inversion E; subst. reflexivity.
    + intros E. inversion E; subst. reflexivity.
Qed.

Lemma Explicit_Close_closes_once_witness :
  Explicit.Close (calm_net good_answer) (connected0 good_station, one_open) =
    (Val None,
     (Explicit.New3EAliveClient plc good_station,
      MkWorld [EvClose 0%nat; EvDial plc] 1 [0%nat])).
Proof.
  destruct (Explicit_Close_closes_once (calm_net good_answer)
              (connected0 good_station) one_open) as (H & _).
  destruct (H 0%nat eq_refl) as (E & _). exact E.
Defined.

(** ** Well-formed worlds *)

Lemma world_ok_log (e : event) (w : World) : world_ok w -> world_ok (log e w).
Proof. intros H x Hx. exact (H x Hx). Qed.

Lemma live_log (e : event) (w : World) (h : handle) :
  live w h -> live (log e w) h.
Proof. intros H. exact H. Qed.

(** Which connections are closed after a [Close] of [h]. *)
Lemma conn_Close_closed net h w r w' x :
  conn_Close net h w = (r, w') ->
  is_closed w' x = true -> x = h \/ is_closed w x = true.
Proof.
  unfold conn_Close. destruct (is_closed w h) eqn:Hc; intros E;
    inversion E; subst; clear E.
  - auto.
  - unfold is_closed. cbn. intros H. apply orb_true_iff in H.
    destruct H as [H|H]; [left; now apply Nat.eqb_eq | right; exact H].
Qed.

(** Closing a dialed connection keeps the world well formed. *)
Lemma conn_Close_ok net h w r w' :
  conn_Close net h w = (r, w') ->
  (h < dialed w)%nat -> world_ok w -> world_ok w'.
Proof.
  intros Hcl Hh Hok x Hx.
  destruct (conn_Close_world _ _ _ _ _ Hcl) as (_ & Hd & _).
  rewrite Hd. destruct (conn_Close_closed _ _ _ _ _ _ Hcl Hx) as [->|H]; auto.
Qed.

(** A successful dial gives the next connection number; the connection is
    live in a well-formed world, and the world stays well formed. *)
Lemma DialTCP_OK net a w h w' :
  DialTCP net a w = (OK h, w') ->
  h = dialed w /\
  w' = MkWorld (EvDial a :: trace w) (S (dialed w)) (closed w) /\
  (world_ok w -> world_ok w' /\ live w' h).
Proof.
  unfold DialTCP. destruct (dial_answer net (trace w) a); [discriminate|].
  intros E. inversion E; subst; clear E.
  split; [reflexivity|]. split; [reflexivity|].
  intros Hok. split; [|split].
  - intros x Hx. cbn. apply (Hok x) in Hx. lia.
  - cbn. lia.
  - destruct (is_closed _ (dialed w)) eqn:Hc; [|reflexivity].
    apply (Hok (dialed w)) in Hc. lia.
Qed.

Lemma DialTCP_Err net a w e w' :
  DialTCP net a w = (Err e, w') ->
  w' = log (EvDial a) w /\ dial_answer net (trace w) a = Some e.
Proof.
  unfold DialTCP. destruct (dial_answer net (trace w) a); [|discriminate].
  intros E. inversion E; subst. auto.
Qed.

(** ** [Connect] when the dial succeeds *)


Lemma world_ok_one_open : world_ok one_open.
Proof. intros x H. vm_compute in H. discriminate H. Qed.

Lemma live_one_open : live one_open 0%nat.
Proof. split; [apply Nat.lt_0_1 | reflexivity]. Qed.


(** ** The first acquisition *)

Lemma getConnection_absent_run net c w r w' :
  Persistent.conn c = None ->
  Persistent.mu c = false ->
  DialTCP net (Persistent.tcpAddr c) w = (r, w') ->
  Persistent.getConnection net (c, w) =
    (Val r,
     (match r with
      | OK h => Persistent.Client (Some h) (Persistent.tcpAddr c)
                  (Persistent.stn c) false
      | Err _ => c
      end, w')).
Proof.
  destruct c as [cn a st m]. cbn. intros -> -> Hd.
  run_persistent. rewrite Hd. destruct r; reflexivity.
Qed.

(** X4.  [getConnection] with nothing stored, the mutex free and the world well
    formed makes one call, the dial, and no probe.  A failed dial returns
    its error and the client is as it was; a successful dial stores the new
    connection, which is live, and returns it. *)
Theorem getConnection_first_dial :
  forall net (c : Persistent.client3EAlive) (w : World),
    Persistent.conn c = None ->
    Persistent.mu c = false ->
    world_ok w ->
    let a := Persistent.tcpAddr c in
    (forall e,
        dial_answer net (trace w) a = Some e ->
        Persistent.getConnection net (c, w) =
          (Val (Err e), (c, log (EvDial a) w))) /\
    (dial_answer net (trace w) a = None ->
     exists w',
       Persistent.getConnection net (c, w) =
         (Val (OK (dialed w)),
          (Persistent.Client (Some (dialed w)) a (Persistent.stn c) false,
           w')) /\
       trace w' = EvDial a :: trace w /\
       live w' (dialed w) /\
       world_ok w').
Proof.
  intros net c w Hc Hmu Hok a. subst a. split.
  - intros e He.
    rewrite (getConnection_absent_run net c w (Err e)
               (log (EvDial (Persistent.tcpAddr c)) w) Hc Hmu).
    + reflexivity.
    + unfold DialTCP. now rewrite He.
  - intros Hn.
    destruct (DialTCP net (Persistent.tcpAddr c) w) as [[h|e] w'] eqn:Hd.
    + destruct (DialTCP_OK _ _ _ _ _ Hd) as (-> & Hw' & Hl).
      destruct (Hl Hok) as [Hok' Hlive].
      exists w'. rewrite (getConnection_absent_run _ _ _ _ _ Hc Hmu Hd).
      split; [reflexivity|]. split; [subst w'; reflexivity|]. auto.
    + apply DialTCP_Err in Hd. destruct Hd as [_ Hd]. congruence.
Qed.

Lemma world_ok_fresh : world_ok fresh_world.
Proof. intros x H. vm_compute in H. discriminate H. Qed.

Lemma getConnection_first_dial_witness :
  exists w',
    Persistent.getConnection (calm_net good_answer)
        (Persistent.New3EAliveClient plc good_station, fresh_world) =
      (Val (OK 0%nat), (stored0 good_station, w')) /\
    trace w' = [EvDial plc] /\
    live w' 0%nat.
Proof.
  destruct (getConnection_first_dial (calm_net good_answer)
              (Persistent.New3EAliveClient plc good_station) fresh_world
              eq_refl eq_refl world_ok_fresh) as (_ & H).
  destruct (H eq_refl) as (w' & E & Ht & Hl & _).
  exists w'. auto.
Defined.

(** ** The explicit client leaves its connection alone *)

(** The checks on a response touch neither client nor world. *)
Lemma check_response_state {C : Type} (buf : slice) (readLen : nat)
    (s : C * World) :
  snd (check_response buf readLen s) = s.
Proof.
  unfold check_response, bind, pure, ret.
  destruct (slice_to buf readLen) as [resp|p]; [|reflexivity].
  destruct (negb (readLen =? 18)%nat); [reflexivity|].
  destruct (slice_range resp 11 13) as [hdr|p]; [|reflexivity].
  destruct (negb _); [reflexivity|].
  destruct (slice_range resp 13 18) as [body|p]; [|reflexivity].
  destruct (negb _); reflexivity.
Qed.

Ltac leaf := cbn; eexists; reflexivity.

Lemma Explicit_exchange_world net req bufLen c w :
  exists tr,
    snd (Explicit.exchange net req bufLen (c, w)) =
      (c, MkWorld tr (dialed w) (closed w)).
Proof.
  destruct w as [tr0 dl cl]. unfold Explicit.exchange.
  destruct (DecodeString req) as [payload [e|]]; [leaf|].
  unfold bind at 1, Explicit.c_conn_Write, Explicit.c_conn_Read,
    Explicit.get_conn.
  unfold bind at 1. cbn [fst].
  destruct (Explicit.conn c) as [h|] eqn:Hc; [|leaf].
  unfold io at 1. cbn [fst snd].
  destruct (conn_Write net h payload _) as [[n|e] w2] eqn:Hw;
    apply conn_Write_world in Hw; subst w2; [|leaf].
  unfold bind at 1, pure at 1.
  destruct (make_bytes bufLen) as [b|p]; [|leaf].
  unfold bind at 1. unfold bind at 1. cbn [fst]. rewrite Hc.
  unfold io at 1. cbn [fst snd].
  destruct (conn_Read net h b _) as [[b' [readLen|e]] w3] eqn:Hr;
    apply conn_Read_world in Hr; subst w3; [|leaf].
  unfold bind at 1, pure at 1.
  destruct (slice_to b' readLen); leaf.
Qed.

Lemma Explicit_exchange_frame net req bufLen c w :
  explicit_frame c w (snd (Explicit.exchange net req bufLen (c, w))).
Proof.
  destruct (Explicit_exchange_world net req bufLen c w) as [tr ->].
  repeat split.
Qed.

Lemma Explicit_HealthCheck_world net c w :
  exists tr,
    snd (Explicit.HealthCheck net (c, w)) =
      (c, MkWorld tr (dialed w) (closed w)).
Proof.
  destruct (DecodeString (BuildHealthCheckRequest (Explicit.stn c)))
    as [payload [e|]] eqn:Hdec.
  { unfold Explicit.HealthCheck, Explicit.get_stn, bind at 1. cbn [fst].
    rewrite Hdec. destruct w. leaf. }
  destruct (Explicit.conn c) as [h|] eqn:Hc.
  - destruct (conn_Write net h payload w) as [[n|e] w2] eqn:Hw.
    + destruct (conn_Read net h (Slice (repeat x00 30) 30) w2)
        as [[b' [readLen|e]] w3] eqn:Hr.
      * rewrite (Explicit_HealthCheck_received _ _ _ _ _ _ _ _ _ _
                   Hdec Hc Hw Hr).
        rewrite check_response_state.
        apply conn_Write_world in Hw. apply conn_Read_world in Hr.
        subst w3 w2. leaf.
      * unfold Explicit.HealthCheck, Explicit.get_stn, bind at 1. cbn [fst].
        rewrite Hdec.
        unfold bind at 1, Explicit.c_conn_Write, Explicit.c_conn_Read,
          Explicit.get_conn.
        unfold bind at 1. cbn [fst]. rewrite Hc. unfold io at 1.
        cbn [fst snd]. rewrite Hw.
        unfold bind at 1, pure at 1. rewrite make_bytes_30.
        unfold bind at 1. unfold bind at 1. cbn [fst]. rewrite Hc.
        unfold io at 1. cbn [fst snd]. rewrite Hr.
        apply conn_Write_world in Hw. apply conn_Read_world in Hr.
        subst w3 w2. leaf.
    + unfold Explicit.HealthCheck, Explicit.get_stn, bind at 1. cbn [fst].
      rewrite Hdec.
      unfold bind at 1, Explicit.c_conn_Write, Explicit.get_conn.
      unfold bind at 1. cbn [fst]. rewrite Hc. unfold io at 1.
      cbn [fst snd]. rewrite Hw.
      apply conn_Write_world in Hw. subst w2. leaf.
  - unfold Explicit.HealthCheck, Explicit.get_stn, bind at 1. cbn [fst].
    rewrite Hdec.
    unfold bind at 1, Explicit.c_conn_Write, Explicit.get_conn.
    unfold bind at 1. cbn [fst]. rewrite Hc. destruct w. leaf.
Qed.

Lemma Explicit_HealthCheck_frame net c w :
  explicit_frame c w (snd (Explicit.HealthCheck net (c, w))).
Proof.
  destruct (Explicit_HealthCheck_world net c w) as [tr ->].
  repeat split.
Qed.

(** X5.  Whatever happens, [HealthCheck], [Read], [BitRead] and [Write] of the
    explicit client leave the client as it was, and close and dial nothing:
    after a failed write or read the same connection is still stored. *)
Theorem Explicit_methods_keep_connection :
  forall net (c : Explicit.client3EAlive) (w : World)
         (d : string) (o n : Z) (data : list byte),
    explicit_frame c w (snd (Explicit.HealthCheck net (c, w))) /\
    explicit_frame c w (snd (Explicit.Read net d o n (c, w))) /\
    explicit_frame c w (snd (Explicit.BitRead net d o n (c, w))) /\
    explicit_frame c w (snd (Explicit.Write net d o n data (c, w))).
Proof.
  intros. split; [apply Explicit_HealthCheck_frame|].
  rewrite Explicit_Read_exchange, Explicit_BitRead_exchange,
    Explicit_Write_exchange.
  repeat split; apply Explicit_exchange_frame.
Qed.

(** ** The explicit client before [Connect] *)

Lemma Explicit_exchange_nil net req bufLen c w payload :
  Explicit.conn c = None ->
  DecodeString req = (payload, None) ->
  Explicit.exchange net req bufLen (c, w) = (Panic NilDereference, (c, w)).
Proof.
  intros Hc Hdec. unfold Explicit.exchange. rewrite Hdec.
  unfold bind at 1, Explicit.c_conn_Write, Explicit.get_conn.
  unfold bind at 1. cbn [fst]. rewrite Hc. reflexivity.
Qed.

(** X6.  With no connection stored (a new client, or one that was closed), a
    method of the explicit client whose frame decodes panics on the nil
    connection, before any call on the network. *)
Theorem Explicit_methods_need_connection :
  forall net (c : Explicit.client3EAlive) (w : World)
         (d : string) (o n : Z) (data : list byte),
    Explicit.conn c = None ->
    let st := Explicit.stn c in
    (forall payload,
        DecodeString (BuildHealthCheckRequest st) = (payload, None) ->
        Explicit.HealthCheck net (c, w) = (Panic NilDereference, (c, w))) /\
    (forall payload,
        DecodeString (BuildReadRequest st d o n) = (payload, None) ->
        Explicit.Read net d o n (c, w) = (Panic NilDereference, (c, w))) /\
    (forall payload,
        DecodeString (BuildBitReadRequest st d o n) = (payload, None) ->
        Explicit.BitRead net d o n (c, w) = (Panic NilDereference, (c, w))) /\
    (forall payload,
        DecodeString (BuildWriteRequest st d o n data) = (payload, None) ->
        Explicit.Write net d o n data (c, w) =
          (Panic NilDereference, (c, w))).
Proof.
  intros net c w d o n data Hc st. subst st.
  split; [|split; [|split]]; intros payload Hdec.
  - unfold Explicit.HealthCheck, Explicit.get_stn, bind at 1. cbn [fst].
    rewrite Hdec.
    unfold bind at 1, Explicit.c_conn_Write, Explicit.get_conn.
    unfold bind at 1. cbn [fst]. rewrite Hc. reflexivity.
  - rewrite Explicit_Read_exchange. eapply Explicit_exchange_nil; eauto.
  - rewrite Explicit_BitRead_exchange. eapply Explicit_exchange_nil; eauto.
  - rewrite Explicit_Write_exchange. eapply Explicit_exchange_nil; eauto.
Qed.

Lemma Explicit_methods_need_connection_witness :
  Explicit.Read (calm_net ten_points_answer) "D100" 0 10
      (Explicit.New3EAliveClient plc good_station, fresh_world) =
    (Panic NilDereference,
     (Explicit.New3EAliveClient plc good_station, fresh_world)).
Proof.
  destruct (Explicit_methods_need_connection (calm_net ten_points_answer)
              (Explicit.New3EAliveClient plc good_station) fresh_world
              "D100" 0 10 [] eq_refl) as (_ & HR & _).
  exact (HR [x50; x00] eq_refl).
Defined.

(** ** Failed writes and reads in the explicit client *)

Lemma Explicit_exchange_io_failure net c w h req bufLen payload :
  Explicit.conn c = Some h ->
  DecodeString req = (payload, None) ->
  explicit_io_failure_spec net h c w payload bufLen Err
    (Explicit.exchange net req bufLen (c, w)).
Proof.
  intros Hc Hdec. unfold Explicit.exchange. rewrite Hdec.
  unfold bind at 1, Explicit.c_conn_Write, Explicit.c_conn_Read,
    Explicit.get_conn.
  unfold bind at 1. cbn [fst]. rewrite Hc. unfold io at 1. cbn [fst snd].
  split.
  - intros e w2 Hw. rewrite Hw.
    apply conn_Write_world in Hw. subst w2. reflexivity.
  - intros n w2 b b' e w3 Hw Hmk Hr. rewrite Hw.
    unfold bind at 1, pure at 1. rewrite Hmk.
    unfold bind at 1. unfold bind at 1. cbn [fst]. rewrite Hc.
    unfold io at 1. cbn [fst snd]. rewrite Hr.
    apply conn_Write_world in Hw. apply conn_Read_world in Hr.
    subst w3 w2. reflexivity.
Qed.

(** X7.  In the explicit client, with a connection [h] stored, a failing write
    or read inside [HealthCheck], [Read], [BitRead] or [Write] is returned
    as it is; after a failed write no read is made; the connection is
    neither closed nor dropped. *)
Theorem Explicit_io_failure_is_returned :
  forall net (c : Explicit.client3EAlive) (w : World) (h : handle),
    Explicit.conn c = Some h ->
    let st := Explicit.stn c in
    (forall payload,
        DecodeString (BuildHealthCheckRequest st) = (payload, None) ->
        explicit_io_failure_spec net h c w payload 30 Some
          (Explicit.HealthCheck net (c, w))) /\
    (forall d o n payload,
        DecodeString (BuildReadRequest st d o n) = (payload, None) ->
        explicit_io_failure_spec net h c w payload
          (add64 22 (mul64 2 n)) Err (Explicit.Read net d o n (c, w))) /\
    (forall d o n payload,
        DecodeString (BuildBitReadRequest st d o n) = (payload, None) ->
        explicit_io_failure_spec net h c w payload
          (add64 22 (mul64 2 n)) Err (Explicit.BitRead net d o n (c, w))) /\
    (forall d o n data payload,
        DecodeString (BuildWriteRequest st d o n data) = (payload, None) ->
        explicit_io_failure_spec net h c w payload 22 Err
          (Explicit.Write net d o n data (c, w))).
Proof.
  intros net c w h Hc st. subst st.
  split; [|split; [|split]]; intros.
  - unfold Explicit.HealthCheck, Explicit.get_stn, bind at 1. cbn [fst].
    rewrite H.
    unfold bind at 1, Explicit.c_conn_Write, Explicit.c_conn_Read,
      Explicit.get_conn.
    unfold bind at 1. cbn [fst]. rewrite Hc. unfold io at 1. cbn [fst snd].
    split.
    + intros e w2 Hw. rewrite Hw.
      apply conn_Write_world in Hw. subst w2. reflexivity.
    + intros n w2 b b' e w3 Hw Hmk Hr. rewrite Hw.
      unfold bind at 1, pure at 1. rewrite Hmk.
      unfold bind at 1. unfold bind at 1. cbn [fst]. rewrite Hc.
      unfold io at 1. cbn [fst snd]. rewrite Hr.
      apply conn_Write_world in Hw. apply conn_Read_world in Hr.
      subst w3 w2. reflexivity.
  - rewrite Explicit_Read_exchange.
    now apply Explicit_exchange_io_failure.
  - rewrite Explicit_BitRead_exchange.
    now apply Explicit_exchange_io_failure.
  - rewrite Explicit_Write_exchange.
    now apply Explicit_exchange_io_failure.
Qed.

Lemma Explicit_io_failure_is_returned_witness :
  Explicit.Write write_fails_net "D100" 0 1 [x00; x01]
      (connected0 good_station, one_open) =
    (Val (Err (OpError 2)),
     (connected0 good_station,
      MkWorld [EvWrite 0%nat [x50; x00]; EvDial plc] 1 [])) /\
  Explicit.HealthCheck read_fails_net (connected0 good_station, one_open) =
    (Val (Some (OpError 3)),
     (connected0 good_station,
      MkWorld [EvRead 0%nat 30; EvWrite 0%nat [x50; x00]; EvDial plc] 1 [])).
Proof.
  split.
  - destruct (Explicit_io_failure_is_returned write_fails_net
                (connected0 good_station) one_open 0%nat eq_refl)
      as (_ & _ & _ & HW).
    destruct (HW "D100"%string 0 1 [x00; x01] [x50; x00] eq_refl) as [Hw _].
    exact (Hw (OpError 2) _ eq_refl).
  - destruct (Explicit_io_failure_is_returned read_fails_net
                (connected0 good_station) one_open 0%nat eq_refl)
      as (HH & _).
    destruct (HH [x50; x00] eq_refl) as [_ Hr].
    exact (Hr 2%nat _ (Slice (repeat x00 30) 30) (Slice (repeat x00 30) 30)
              (OpError 3) _ eq_refl eq_refl eq_refl).
Defined.

(** ** The invariant of the persistent client *)

Lemma persistent_ok_log (e : event) c w :
  persistent_ok (c, w) -> persistent_ok (c, log e w).
Proof.
  intros (Hmu & Hok & Hinv). split; [exact Hmu|]. split; [exact Hok|].
  cbn in *. destruct (Persistent.conn c); exact Hinv.
Qed.

Lemma persistent_ok_intro c w :
  Persistent.mu c = false -> world_ok w ->
  conn_invariant (Persistent.conn c) w -> persistent_ok (c, w).
Proof. intros A B C. split; [exact A | split; [exact B | exact C]]. Qed.

Lemma getConnection_redial_run net c w h e w1 ce w2 r w3 :
  Persistent.conn c = Some h ->
  Persistent.mu c = false ->
  conn_Write net h [] w = (Err e, w1) ->
  conn_Close net h w1 = (ce, w2) ->
  DialTCP net (Persistent.tcpAddr c) w2 = (r, w3) ->
  Persistent.getConnection net (c, w) =
    (Val r,
     (Persistent.Client (match r with OK h' => Some h' | Err _ => None end)
        (Persistent.tcpAddr c) (Persistent.stn c) false, w3)).
Proof.
  destruct c as [cn a st m]. cbn. intros -> -> Hw Hcl Hd.
  run_persistent. rewrite Hw. cbn. rewrite Hcl. cbn. rewrite Hd.
  destruct r; reflexivity.
Qed.

(** From a good state [getConnection] returns, leaves a good state, and a
    connection it hands out is the stored one and is live. *)
Lemma getConnection_ok net c w :
  persistent_ok (c, w) ->
  exists r c1 w1,
    Persistent.getConnection net (c, w) = (Val r, (c1, w1)) /\
    persistent_ok (c1, w1) /\
    (forall h, r = OK h -> Persistent.conn c1 = Some h /\ live w1 h).
Proof.
  intros (Hmu & Hok & Hinv). cbn in Hmu, Hok, Hinv.
  destruct (Persistent.conn c) as [h|] eqn:Hc.
  - destruct (conn_Write net h [] w) as [[n|e] w1] eqn:Hw.
    + rewrite (getConnection_probe_ok _ _ _ _ _ _ Hmu Hc Hw).
      apply conn_Write_world in Hw. subst w1.
      exists (OK h), c, (log (EvWrite h []) w).
      split; [reflexivity|]. split.
      * apply persistent_ok_log. apply persistent_ok_intro; auto.
        now rewrite Hc.
      * intros h0 E. inversion E; subst. split; [exact Hc | exact Hinv].
    + destruct (conn_Close net h w1) as [ce w2] eqn:Hcl.
      destruct (DialTCP net (Persistent.tcpAddr c) w2) as [r w3] eqn:Hd.
      rewrite (getConnection_redial_run _ _ _ _ _ _ _ _ _ _
                 Hc Hmu Hw Hcl Hd).
      apply conn_Write_world in Hw. subst w1.
      assert (Hok2 : world_ok w2).
      { eapply conn_Close_ok; [exact Hcl | exact (proj1 Hinv) |].
        now apply world_ok_log. }
      do 3 eexists. split; [reflexivity|].
      destruct r as [h'|e'].
      * destruct (DialTCP_OK _ _ _ _ _ Hd) as (-> & -> & Hl).
        destruct (Hl Hok2) as [Hok3 Hlive].
        split; [apply persistent_ok_intro; [reflexivity | exact Hok3 | exact Hlive]|].
        intros h0 E. inversion E; subst. split; [reflexivity | exact Hlive].
      * apply DialTCP_Err in Hd. destruct Hd as [-> _].
        split.
        -- apply persistent_ok_log.
           apply persistent_ok_intro; [reflexivity | exact Hok2 | exact I].
        -- intros h0 E. discriminate E.
  - destruct (DialTCP net (Persistent.tcpAddr c) w) as [r w3] eqn:Hd.
    rewrite (getConnection_absent_run _ _ _ _ _ Hc Hmu Hd).
    do 3 eexists. split; [reflexivity|].
    destruct r as [h'|e'].
    + destruct (DialTCP_OK _ _ _ _ _ Hd) as (-> & -> & Hl).
      destruct (Hl Hok) as [Hok3 Hlive].
      split; [apply persistent_ok_intro; [reflexivity | exact Hok3 | exact Hlive]|].
      intros h0 E. inversion E; subst. split; [reflexivity | exact Hlive].
    + apply DialTCP_Err in Hd. destruct Hd as [-> _].
      split.
      * apply persistent_ok_log. apply persistent_ok_intro; auto.
        now rewrite Hc.
      * intros h0 E. discriminate E.
Qed.

(** The four lines run after a failed call lead from a good state, in
    which [h] is stored, to a good state. *)
Lemma teardown_ok {A : Type} net (c1 : Persistent.client3EAlive)
    (w2 : World) (h : handle) (v : A) :
  persistent_ok (c1, w2) ->
  Persistent.conn c1 = Some h ->
  persistent_ok
    (snd (bind Persistent.mu_Lock (fun _ =>
          bind (Persistent.c_conn_Close net) (fun _ =>
          bind (Persistent.set_conn None) (fun _ =>
          bind Persistent.mu_Unlock (fun _ => ret v)))) (c1, w2))).
Proof.
  destruct c1 as [cn a st m]. intros (Hmu & Hok & Hinv) Hc.
  cbn in Hmu, Hok, Hinv, Hc. subst m cn. destruct Hinv as [Hlt _].
  run_persistent.
  destruct (conn_Close net h w2) as [ce w'] eqn:Hcl. cbn.
  apply persistent_ok_intro; [reflexivity | | exact I].
  eapply conn_Close_ok; eauto.
Qed.

Lemma Persistent_exchange_ok net req bufLen c w :
  persistent_ok (c, w) ->
  persistent_ok (snd (Persistent.exchange net req bufLen (c, w))).
Proof.
  intros Hgood. unfold Persistent.exchange.
  destruct (DecodeString req) as [payload [e|]]; [exact Hgood|].
  unfold bind at 1.
  destruct (getConnection_ok net c w Hgood) as (r & c1 & w1 & -> & Hg1 & Hr).
  destruct r as [h|e]; [|exact Hg1].
  destruct (Hr h eq_refl) as [Hc1 Hlive].
  unfold bind at 1, io at 1. cbn [fst snd].
  destruct (conn_Write net h payload w1) as [[n|e] w2] eqn:Hw;
    apply conn_Write_world in Hw; subst w2.
  - unfold bind at 1, pure at 1.
    destruct (make_bytes bufLen) as [b|p];
      [|now apply persistent_ok_log].
    unfold bind at 1, io at 1. cbn [fst snd].
    destruct (conn_Read net h b _) as [[b' [readLen|e]] w3] eqn:Hrd;
      apply conn_Read_world in Hrd; subst w3.
    + unfold bind at 1, pure at 1.
      destruct (slice_to b' readLen); now do 2 apply persistent_ok_log.
    + apply (teardown_ok net c1 _ h); [|exact Hc1].
      now do 2 apply persistent_ok_log.
  - apply (teardown_ok net c1 _ h); [|exact Hc1].
    now apply persistent_ok_log.
Qed.

Lemma Persistent_HealthCheck_ok net c w :
  persistent_ok (c, w) ->
  persistent_ok (snd (Persistent.HealthCheck net (c, w))).
Proof.
  intros Hgood.
  destruct (DecodeString (BuildHealthCheckRequest (Persistent.stn c)))
    as [payload [e|]] eqn:Hdec.
  { unfold Persistent.HealthCheck, Persistent.get_stn, bind at 1. cbn [fst].
    rewrite Hdec. exact Hgood. }
  destruct (getConnection_ok net c w Hgood) as (r & c1 & w1 & Hacq & Hg1 & Hr).
  destruct r as [h|e].
  - destruct (Hr h eq_refl) as [Hc1 Hlive].
    destruct (conn_Write net h payload w1) as [[n|e] w2] eqn:Hw.
    + destruct (conn_Read net h (Slice (repeat x00 30) 30) w2)
        as [[b' [readLen|e]] w3] eqn:Hrd.
      * rewrite (Persistent_HealthCheck_received _ _ _ _ _ _ _ _ _ _ _ _
                   Hdec Hacq Hw Hrd).
        rewrite check_response_state.
        apply conn_Write_world in Hw. apply conn_Read_world in Hrd.
        subst w3 w2. now do 2 apply persistent_ok_log.
      * unfold Persistent.HealthCheck, Persistent.get_stn, bind at 1.
        cbn [fst]. rewrite Hdec. unfold bind at 1. rewrite Hacq.
        unfold bind at 1, io at 1. cbn [fst snd]. rewrite Hw.
        unfold bind at 1, pure at 1. rewrite make_bytes_30.
        unfold bind at 1, io at 1. cbn [fst snd]. rewrite Hrd.
        apply conn_Write_world in Hw. apply conn_Read_world in Hrd.
        subst w3 w2.
        apply (teardown_ok net c1 _ h); [|exact Hc1].
        now do 2 apply persistent_ok_log.
    + unfold Persistent.HealthCheck, Persistent.get_stn, bind at 1.
      cbn [fst]. rewrite Hdec. unfold bind at 1. rewrite Hacq.
      unfold bind at 1, io at 1. cbn [fst snd]. rewrite Hw.
      apply conn_Write_world in Hw. subst w2.
      apply (teardown_ok net c1 _ h); [|exact Hc1].
      now apply persistent_ok_log.
  - unfold Persistent.HealthCheck, Persistent.get_stn, bind at 1.
    cbn [fst]. rewrite Hdec. unfold bind at 1. rewrite Hacq. exact Hg1.
Qed.

Lemma Persistent_Close_ok net c w :
  persistent_ok (c, w) ->
  persistent_ok (snd (Persistent.Close net (c, w))).
Proof.
  destruct c as [[h|] a st m]; intros (Hmu & Hok & Hinv);
    cbn in Hmu, Hok, Hinv; subst m; unfold Persistent.Close; run_persistent.
  - destruct Hinv as [Hlt _].
    destruct (conn_Close net h w) as [ce w'] eqn:Hcl. cbn.
    apply persistent_ok_intro; [reflexivity | | exact I].
    eapply conn_Close_ok; eauto.
  - apply persistent_ok_intro; [reflexivity | exact Hok | exact I].
Qed.

(** X8.  From a state in which the mutex is free, the world is well formed and
    the connection field holds nothing or a live connection, every method
    of the persistent client leads to such a state again, whatever the
    network answers: no path leaves a closed connection stored or the mutex
    held. *)
Theorem Persistent_methods_keep_invariant :
  forall net (c : Persistent.client3EAlive) (w : World)
         (d : string) (o n : Z) (data : list byte),
    persistent_ok (c, w) ->
    persistent_ok (snd (Persistent.getConnection net (c, w))) /\
    persistent_ok (snd (Persistent.Close net (c, w))) /\
    persistent_ok (snd (Persistent.HealthCheck net (c, w))) /\
    persistent_ok (snd (Persistent.Read net d o n (c, w))) /\
    persistent_ok (snd (Persistent.BitRead net d o n (c, w))) /\
    persistent_ok (snd (Persistent.Write net d o n data (c, w))).
Proof.
  intros net c w d o n data Hgood.
  split.
  { destruct (getConnection_ok net c w Hgood) as (r & c1 & w1 & -> & Hg & _).
    exact Hg. }
  split; [now apply Persistent_Close_ok|].
  split; [now apply Persistent_HealthCheck_ok|].
  rewrite Persistent_Read_exchange, Persistent_BitRead_exchange,
    Persistent_Write_exchange.
  split; [|split]; now apply Persistent_exchange_ok.
Qed.

Lemma persistent_ok_stored0 (st : station) :
  persistent_ok (stored0 st, one_open).
Proof.
  apply persistent_ok_intro;
    [reflexivity | exact world_ok_one_open | exact live_one_open].
Qed.

Lemma Persistent_methods_keep_invariant_witness :
  persistent_ok
    (snd (Persistent.Read write_fails_net "D100" 0 10
            (stored0 good_station, one_open))) /\
  persistent_ok
    (snd (Persistent.HealthCheck probe_fails_net
            (stored0 good_station, one_open))).
Proof.
  split.
  - exact (proj1 (proj2 (proj2 (proj2
      (Persistent_methods_keep_invariant write_fails_net
         (stored0 good_station) one_open "D100" 0 10 []
         (persistent_ok_stored0 good_station)))))).
  - exact (proj1 (proj2 (proj2
      (Persistent_methods_keep_invariant probe_fails_net
         (stored0 good_station) one_open "D100" 0 10 []
         (persistent_ok_stored0 good_station))))).
Defined.

(** ** No panic in [HealthCheck] and [Write] *)






(** ** The call after a failed call *)

(** X10.  After a call that tore the connection down, the next [Read] starts
    with a dial (no probe); for [numPoints >= 0] with [22 + 2*numPoints]
    within the allocator limit, when the dial, the write and the read
    succeed it returns what was read, on the new connection, which is then
    the stored one.  In a well-formed world the new connection is not the closed
    one. *)
Theorem Read_after_teardown_redials :
  forall (A : Type) net (out : res A * Persistent.state) (v : A)
         (h : handle) (tr : list event)
         (d : string) (o numPoints : Z) (payload : list byte)
         (h' : handle) (n readLen : nat) (b' : slice) (w2 w3 w4 : World),
    torn_down out v h tr ->
    let c1 := fst (snd out) in
    let w1 := snd (snd out) in
    let size := response_size numPoints in
    0 <= numPoints ->
    22 + 2 * numPoints <= maxAlloc ->
    DecodeString (BuildReadRequest (Persistent.stn c1) d o numPoints)
      = (payload, None) ->
    DialTCP net (Persistent.tcpAddr c1) w1 = (OK h', w2) ->
    conn_Write net h' payload w2 = (OK n, w3) ->
    conn_Read net h' (Slice (repeat x00 size) size) w3
      = ((b', OK readLen), w4) ->
    exists r,
      Persistent.Read net d o numPoints (c1, w1) =
        (Val (OK r),
         (Persistent.Client (Some h') (Persistent.tcpAddr c1)
            (Persistent.stn c1) false, w4)) /\
      bytes_of r = firstn readLen (arr b') /\
      trace w4 =
        EvRead h' size :: EvWrite h' payload ::
        EvDial (Persistent.tcpAddr c1) :: tr /\
      h' = dialed w1 /\
      (world_ok w1 -> h' <> h).
Proof.
  intros A net [r0 [c1 w1]] v h tr d o numPoints payload h' n readLen b'
         w2 w3 w4 (_ & Hc & Hmu & Hclosed & Htr).
  cbn in Hc, Hmu, Hclosed, Htr. cbn [fst snd].
  intros H0 Hmax Hdec Hd Hw Hr.
  pose proof (getConnection_absent_run _ _ _ _ _ Hc Hmu Hd) as Hacq.
  pose proof maxAlloc_int64 as Hm.
  assert (Hlen : add64 22 (mul64 2 numPoints) = 22 + 2 * numPoints)
    by (apply buffer_length_exact; lia).
  assert (Hpos : 0 <= add64 22 (mul64 2 numPoints) <= maxAlloc) by lia.
  assert (Hsz : response_size numPoints
                = Z.to_nat (add64 22 (mul64 2 numPoints)))
    by (unfold response_size; now rewrite Hlen).
  pose proof (Persistent_exchange_sized net c1 w1 _ _ payload h' _ w2 n w3
                Hpos Hdec Hacq Hw) as Hs.
  rewrite <- Hsz in Hs.
  destruct (Hs b' readLen w4 Hr) as (r & E & _ & _ & _ & Hb & Ht).
  exists r. rewrite Persistent_Read_exchange.
  split; [exact E|]. split; [exact Hb|].
  destruct (DialTCP_OK _ _ _ _ _ Hd) as (Hh' & Hw2 & _).
  apply conn_Write_world in Hw.
  split; [rewrite Ht; subst w3 w2; cbn; now rewrite Htr|].
  split; [exact Hh'|].
  intros Hok E'. subst h'. rewrite <- E' in Hclosed.
  apply Hok in Hclosed. lia.
Qed.

Lemma Read_after_teardown_redials_witness :
  let first := Persistent.Read broken_first_net "D100" 0 10
                 (stored0 good_station, one_open) in
  fst first = Val (Err (OpError 2)) /\
  exists r w4,
    Persistent.Read broken_first_net "D100" 0 10 (snd first) =
      (Val (OK r),
       (Persistent.Client (Some 1%nat) plc good_station false, w4)) /\
    bytes_of r = ten_points_answer.
Proof.
  cbv zeta. split; [reflexivity|].
  destruct (Read_after_teardown_redials (result slice) broken_first_net
              (Persistent.Read broken_first_net "D100" 0 10
                 (stored0 good_station, one_open))
              (Err (OpError 2)) 0%nat
              [EvClose 0%nat; EvWrite 0%nat [x50; x00];
               EvWrite 0%nat []; EvDial plc]
              "D100" 0 10 [x50; x00] 1%nat 2%nat 42%nat
              (Slice ten_points_answer 42)
              (MkWorld [EvDial plc; EvClose 0%nat; EvWrite 0%nat [x50; x00];
                        EvWrite 0%nat []; EvDial plc] 2 [0%nat])
              (MkWorld [EvWrite 1%nat [x50; x00];
                        EvDial plc; EvClose 0%nat; EvWrite 0%nat [x50; x00];
                        EvWrite 0%nat []; EvDial plc] 2 [0%nat])
              (MkWorld [EvRead 1%nat 42; EvWrite 1%nat [x50; x00];
                        EvDial plc; EvClose 0%nat; EvWrite 0%nat [x50; x00];
                        EvWrite 0%nat []; EvDial plc] 2 [0%nat]))
    as (r & E & Hb & _).
  - repeat split.
  - vm_compute. discriminate.
  - vm_compute. discriminate.
  - reflexivity.
  - reflexivity.
  - reflexivity.
  - reflexivity.
  - exists r. eexists. split; [exact E | exact Hb].
Defined.

(** ** The call after a successful call *)

Lemma Persistent_exchange_reuse net c w req bufLen payload h c1 w1 n w2
    b' readLen w3 :
  0 <= bufLen <= maxAlloc ->
  DecodeString req = (payload, None) ->
  Persistent.getConnection net (c, w) = (Val (OK h), (c1, w1)) ->
  conn_Write net h payload w1 = (OK n, w2) ->
  conn_Read net h (Slice (repeat x00 (Z.to_nat bufLen)) (Z.to_nat bufLen)) w2
    = ((b', OK readLen), w3) ->
  reuse_spec net h c1 w3 (Persistent.exchange net req bufLen (c, w)).
Proof.
  intros Hpos Hdec Hacq Hw Hr.
  destruct (getConnection_OK _ _ _ _ _ _ Hacq) as (Hc1 & Hmu1 & _).
  destruct (Persistent_exchange_sized _ _ _ _ _ _ _ _ _ _ _
              Hpos Hdec Hacq Hw b' readLen w3 Hr) as (r & E & _).
  destruct (conn_Read_OK _ _ _ _ _ _ _ Hr) as (data & _ & Hopen & _).
  { unfold cap. cbn. rewrite repeat_length. lia. }
  pose proof (conn_Read_world _ _ _ _ _ _ _ Hr) as Hw3.
  split; [exists r; exact E|]. split; [exact Hc1|].
  split; [subst w3; exact Hopen|].
  intros n' w4 Hp.
  split; [now apply (getConnection_probe_ok net c1 w3 h n' w4)|].
  apply conn_Write_world in Hp. now subst w4.
Qed.

(** X11.  A [Read], [BitRead] (with [numPoints >= 0] and [22 + 2*numPoints]
    within the allocator limit) or [Write] of the persistent client that
    succeeded on connection [h] leaves [h] stored and open; the next acquisition
    probes [h] and, when the probe succeeds, hands it out again without a
    dial: successive calls share one connection. *)
Theorem Persistent_success_keeps_connection :
  forall net (c c1 : Persistent.client3EAlive) (w w1 : World) (h : handle),
    Persistent.getConnection net (c, w) = (Val (OK h), (c1, w1)) ->
    let st := Persistent.stn c in
    (forall d o numPoints payload n w2 b' readLen w3,
        0 <= numPoints ->
        22 + 2 * numPoints <= maxAlloc ->
        DecodeString (BuildReadRequest st d o numPoints) = (payload, None) ->
        conn_Write net h payload w1 = (OK n, w2) ->
        conn_Read net h
          (Slice (repeat x00 (response_size numPoints))
             (response_size numPoints)) w2 = ((b', OK readLen), w3) ->
        reuse_spec net h c1 w3 (Persistent.Read net d o numPoints (c, w))) /\
    (forall d o numPoints payload n w2 b' readLen w3,
        0 <= numPoints ->
        22 + 2 * numPoints <= maxAlloc ->
        DecodeString (BuildBitReadRequest st d o numPoints)
          = (payload, None) ->
        conn_Write net h payload w1 = (OK n, w2) ->
        conn_Read net h
          (Slice (repeat x00 (response_size numPoints))
             (response_size numPoints)) w2 = ((b', OK readLen), w3) ->
        reuse_spec net h c1 w3
          (Persistent.BitRead net d o numPoints (c, w))) /\
    (forall d o numPoints data payload n w2 b' readLen w3,
        DecodeString (BuildWriteRequest st d o numPoints data)
          = (payload, None) ->
        conn_Write net h payload w1 = (OK n, w2) ->
        conn_Read net h (Slice (repeat x00 22) 22) w2
          = ((b', OK readLen), w3) ->
        reuse_spec net h c1 w3
          (Persistent.Write net d o numPoints data (c, w))).
Proof.
  intros net c c1 w w1 h Hacq st. subst st.
  split; [|split].
  - intros d o numPoints payload n w2 b' readLen w3 H0 Hmax Hdec Hw Hr.
    pose proof maxAlloc_int64 as Hm.
    assert (Hlen : add64 22 (mul64 2 numPoints) = 22 + 2 * numPoints)
      by (apply buffer_length_exact; lia).
    rewrite Persistent_Read_exchange.
    apply (Persistent_exchange_reuse _ _ _ _ _ payload h c1 w1 n w2
             b' readLen w3); auto; [lia|].
    rewrite Hlen. exact Hr.
  - intros d o numPoints payload n w2 b' readLen w3 H0 Hmax Hdec Hw Hr.
    pose proof maxAlloc_int64 as Hm.
    assert (Hlen : add64 22 (mul64 2 numPoints) = 22 + 2 * numPoints)
      by (apply buffer_length_exact; lia).
    rewrite Persistent_BitRead_exchange.
    apply (Persistent_exchange_reuse _ _ _ _ _ payload h c1 w1 n w2
             b' readLen w3); auto; [lia|].
    rewrite Hlen. exact Hr.
  - intros d o numPoints data payload n w2 b' readLen w3 Hdec Hw Hr.
    rewrite Persistent_Write_exchange.
    apply (Persistent_exchange_reuse _ _ _ _ _ payload h c1 w1 n w2
             b' readLen w3); auto. unfold maxAlloc. lia.
Qed.

Lemma Persistent_success_keeps_connection_witness :
  reuse_spec (calm_net ack_answer) 0%nat (stored0 good_station)
    (MkWorld [EvRead 0%nat 22; EvWrite 0%nat [x50; x00];
              EvWrite 0%nat []; EvDial plc] 1 [])
    (Persistent.Write (calm_net ack_answer) "D100" 0 1 [x00; x01]
       (stored0 good_station, one_open)).
Proof.
  destruct (Persistent_success_keeps_connection (calm_net ack_answer)
              (stored0 good_station) (stored0 good_station)
              one_open (log (EvWrite 0%nat []) one_open) 0%nat eq_refl)
    as (_ & _ & HW).
  exact (HW "D100"%string 0 1 [x00; x01] [x50; x00] 2%nat _
            (Slice ack_answer 22) 22%nat _ eq_refl eq_refl eq_refl).
Defined.

(** ** [HealthCheck] and the bytes that arrived *)

(** What one read into a fresh buffer of [size] bytes makes of the bytes
    that arrived on an open connection. *)
Lemma conn_Read_arrived net h (size : nat) w data :
  is_closed w h = false ->
  read_answer net (trace w) h = OK data ->
  exists b',
    conn_Read net h (Slice (repeat x00 size) size) w
      = ((b', OK (List.length (firstn size data))),
         log (EvRead h size) w) /\
    firstn (List.length (firstn size data)) (arr b') = firstn size data.
Proof.
  intros Hopen Hdata.
  destruct (conn_Read net h (Slice (repeat x00 size) size) w)
    as [[b' r] w'] eqn:Hr.
  pose proof (conn_Read_world _ _ _ _ _ _ _ Hr) as Hw'. cbn [len] in Hw'.
  assert (Hr' := Hr). unfold conn_Read in Hr'. rewrite Hopen, Hdata in Hr'.
  destruct (fill _ data) as [n0 b0]. inversion Hr'; subst b0 r; clear Hr'.
  destruct (conn_Read_OK _ _ _ _ _ _ _ Hr) as (data' & Hd' & _ & Hn & _ & _ & Hf).
  { unfold cap. cbn. rewrite repeat_length. lia. }
  rewrite Hdata in Hd'. inversion Hd'; subst data'. cbn [len] in Hn, Hf.
  assert (Hlen : List.length (firstn size data) = n0)
    by (rewrite length_firstn; lia).
  exists b'. rewrite Hlen. subst w'. auto.
Qed.

(** X12.  [HealthCheck] reads once, at most 30 bytes.  Its answer is the verdict
    on the first 30 bytes that arrived; in particular, when more than 18
    bytes arrived in that read it fails the length check, even when the
    first 18 of them are a good answer.  This holds for the persistent
    client, whatever connection its acquisition handed out, and for the
    explicit client in any world. *)
Theorem HealthCheck_on_arrived_bytes :
  (forall net payload h n data (c c1 : Persistent.client3EAlive) w0 w1 w2,
      DecodeString (BuildHealthCheckRequest (Persistent.stn c))
        = (payload, None) ->
      Persistent.getConnection net (c, w0) = (Val (OK h), (c1, w1)) ->
      conn_Write net h payload w1 = (OK n, w2) ->
      read_answer net (trace w2) h = OK data ->
      let resp := firstn 30 data in
      let r := fst (Persistent.HealthCheck net (c, w0)) in
      HealthCheck_verdict (List.length resp) resp r /\
      ((18 < List.length data)%nat ->
       r = Val (Some (errorString (msg_length ++ Sprintf_X resp ++ "]"))))) /\
  (forall net payload h n data (c : Explicit.client3EAlive) w w2,
      DecodeString (BuildHealthCheckRequest (Explicit.stn c))
        = (payload, None) ->
      Explicit.conn c = Some h ->
      conn_Write net h payload w = (OK n, w2) ->
      read_answer net (trace w2) h = OK data ->
      let resp := firstn 30 data in
      let r := fst (Explicit.HealthCheck net (c, w)) in
      HealthCheck_verdict (List.length resp) resp r /\
      ((18 < List.length data)%nat ->
       r = Val (Some (errorString (msg_length ++ Sprintf_X resp ++ "]"))))).
Proof.
  split.
  - intros net payload h n data c c1 w0 w1 w2 Hdec Hacq Hw Hdata resp r.
    assert (Hopen : is_closed w2 h = false).
    { pose proof (conn_Write_OK_open _ _ _ _ _ _ Hw) as Ho.
      pose proof (conn_Write_world _ _ _ _ _ _ Hw) as ->. exact Ho. }
    destruct (conn_Read_arrived net h 30 w2 data Hopen Hdata)
      as (b' & Hr & Hb).
    fold resp in Hr, Hb.
    destruct (Persistent_HealthCheck_outcome _ _ _ _ _ _ _ _ _ _ _ _
                Hdec Hacq Hw Hr) as (r1 & E1 & Hv1).
    rewrite Hb in Hv1. subst r. rewrite E1. cbn [fst].
    split; [exact Hv1|]. intros Hlong.
    assert (Hne : List.length resp <> 18%nat)
      by (unfold resp; rewrite length_firstn; lia).
    destruct Hv1 as (_ & Hl1 & _). auto.
  - intros net payload h n data c w w2 Hdec Hc Hw Hdata resp r.
    assert (Hopen : is_closed w2 h = false).
    { pose proof (conn_Write_OK_open _ _ _ _ _ _ Hw) as Ho.
      pose proof (conn_Write_world _ _ _ _ _ _ Hw) as ->. exact Ho. }
    destruct (conn_Read_arrived net h 30 w2 data Hopen Hdata)
      as (b' & Hr & Hb).
    fold resp in Hr, Hb.
    destruct (Explicit_HealthCheck_outcome _ _ _ _ _ _ _ _ _ _
                Hdec Hc Hw Hr) as (r1 & E1 & Hv1).
    rewrite Hb in Hv1. subst r. rewrite E1. cbn [fst].
    split; [exact Hv1|]. intros Hlong.
    assert (Hne : List.length resp <> 18%nat)
      by (unfold resp; rewrite length_firstn; lia).
    destruct Hv1 as (_ & Hl1 & _). auto.
Qed.

Lemma HealthCheck_on_arrived_bytes_witness :
  fst (Persistent.HealthCheck (calm_net (good_answer ++ [x00]))
         (stored0 good_station, one_open)) =
    Val (Some (errorString
      "plc connect test is fail: return length is [00000000000000000000000500414243444500]")) /\
  fst (Explicit.HealthCheck (calm_net (good_answer ++ [x00]))
         (connected0 good_station, second_call_world)) =
    Val (Some (errorString
      "plc connect test is fail: return length is [00000000000000000000000500414243444500]")).
Proof.
  destruct HealthCheck_on_arrived_bytes as [HP HE].
  split.
  - destruct (HP (calm_net (good_answer ++ [x00])) [x50; x00] 0%nat 2%nat
                (good_answer ++ [x00])
                (stored0 good_station) (stored0 good_station) one_open
                (log (EvWrite 0%nat []) one_open)
                (log (EvWrite 0%nat [x50; x00])
                   (log (EvWrite 0%nat []) one_open))
                eq_refl eq_refl eq_refl eq_refl) as (_ & H).
    apply H. vm_compute. reflexivity.
  - destruct (HE (calm_net (good_answer ++ [x00])) [x50; x00] 0%nat 2%nat
                (good_answer ++ [x00])
                (connected0 good_station) second_call_world
                (log (EvWrite 0%nat [x50; x00]) second_call_world)
                eq_refl eq_refl eq_refl eq_refl) as (_ & H).
    apply H. vm_compute. reflexivity.
Defined.

(** ** When no connection can be acquired *)

(** A failed acquisition has dialed last and leaves nothing stored. *)
Lemma getConnection_Err net c w e c1 w1 :
  Persistent.getConnection net (c, w) = (Val (Err e), (c1, w1)) ->
  Persistent.conn c1 = None /\
  exists tr, trace w1 = EvDial (Persistent.tcpAddr c) :: tr.
Proof.
  destruct c as [[h0|] a st [|]]; run_persistent; try discriminate.
  - destruct (conn_Write net h0 [] w) as [[n|e0] w2] eqn:Hw; cbn;
      [discriminate|].
    destruct (conn_Close net h0 w2) as [ce w3] eqn:Hcl. cbn.
    destruct (DialTCP net a w3) as [[h'|e'] w4] eqn:Hd; cbn;
      [discriminate|].
    intros E. inversion E; subst. apply DialTCP_Err in Hd.
    destruct Hd as [-> _]. cbn. eauto.
  - destruct (DialTCP net a w) as [[h'|e'] w4] eqn:Hd; cbn; [discriminate|].
    intros E. inversion E; subst. apply DialTCP_Err in Hd.
    destruct Hd as [-> _]. cbn. eauto.
Qed.

(** X13.  In the persistent client, when the acquisition fails (the dial was
    refused), [HealthCheck], [Read], [BitRead] and [Write] return the error
    of the dial and stop there: the last call made on the network is the
    dial, the request was not written, and nothing is stored. *)
Theorem Persistent_dial_failure_is_returned :
  forall net (c : Persistent.client3EAlive) (w : World) (e : error)
         (s1 : Persistent.state),
    Persistent.getConnection net (c, w) = (Val (Err e), s1) ->
    let st := Persistent.stn c in
    Persistent.conn (fst s1) = None /\
    (exists tr, trace (snd s1) = EvDial (Persistent.tcpAddr c) :: tr) /\
    (forall payload,
        DecodeString (BuildHealthCheckRequest st) = (payload, None) ->
        Persistent.HealthCheck net (c, w) = (Val (Some e), s1)) /\
    (forall d o n payload,
        DecodeString (BuildReadRequest st d o n) = (payload, None) ->
        Persistent.Read net d o n (c, w) = (Val (Err e), s1)) /\
    (forall d o n payload,
        DecodeString (BuildBitReadRequest st d o n) = (payload, None) ->
        Persistent.BitRead net d o n (c, w) = (Val (Err e), s1)) /\
    (forall d o n data payload,
        DecodeString (BuildWriteRequest st d o n data) = (payload, None) ->
        Persistent.Write net d o n data (c, w) = (Val (Err e), s1)).
Proof.
  intros net c w e [c1 w1] Hacq st. subst st.
  destruct (getConnection_Err _ _ _ _ _ _ Hacq) as (Hc & Htr).
  split; [exact Hc|]. split; [exact Htr|].
  split; [|split; [|split]]; intros.
  - unfold Persistent.HealthCheck, Persistent.get_stn, bind at 1.
    cbn [fst]. rewrite H. unfold bind at 1. rewrite Hacq. reflexivity.
  - unfold Persistent.Read, Persistent.get_stn, bind at 1.
    cbn [fst]. rewrite H. unfold bind at 1. rewrite Hacq. reflexivity.
  - unfold Persistent.BitRead, Persistent.get_stn, bind at 1.
    cbn [fst]. rewrite H. unfold bind at 1. rewrite Hacq. reflexivity.
  - unfold Persistent.Write, Persistent.get_stn, bind at 1.
    cbn [fst]. rewrite H. unfold bind at 1. rewrite Hacq. reflexivity.
Qed.

Lemma Persistent_dial_failure_is_returned_witness :
  Persistent.Read no_route_net "D100" 0 10
      (Persistent.New3EAliveClient plc good_station, fresh_world) =
    (Val (Err (OpError 4)),
     (Persistent.New3EAliveClient plc good_station,
      MkWorld [EvDial plc] 0 [])).
Proof.
  destruct (Persistent_dial_failure_is_returned no_route_net
              (Persistent.New3EAliveClient plc good_station) fresh_world
              (OpError 4)
              (Persistent.New3EAliveClient plc good_station,
               MkWorld [EvDial plc] 0 []) eq_refl)
    as (_ & _ & _ & HR & _).
  exact (HR "D100"%string 0 10 [x50; x00] eq_refl).
Defined.

(** ** A negative buffer length *)

Lemma Persistent_exchange_bad_length net c w req bufLen payload h c1 w1
    n w2 :
  bufLen < 0 \/ maxAlloc < bufLen ->
  DecodeString req = (payload, None) ->
  Persistent.getConnection net (c, w) = (Val (OK h), (c1, w1)) ->
  conn_Write net h payload w1 = (OK n, w2) ->
  Persistent.exchange net req bufLen (c, w) = (Panic MakeSliceLen, (c1, w2)).
Proof.
  intros Hbad Hdec Hacq Hw.
  unfold Persistent.exchange. rewrite Hdec. unfold bind at 1. rewrite Hacq.
  unfold bind at 1, io at 1. cbn [fst snd]. rewrite Hw.
  unfold bind at 1, pure at 1. rewrite (make_bytes_Panic _ Hbad).
  reflexivity.
Qed.

Lemma Explicit_exchange_bad_length net c w req bufLen payload h n w2 :
  bufLen < 0 \/ maxAlloc < bufLen ->
  DecodeString req = (payload, None) ->
  Explicit.conn c = Some h ->
  conn_Write net h payload w = (OK n, w2) ->
  Explicit.exchange net req bufLen (c, w) = (Panic MakeSliceLen, (c, w2)).
Proof.
  intros Hbad Hdec Hc Hw.
  unfold Explicit.exchange. rewrite Hdec.
  unfold bind at 1, Explicit.c_conn_Write, Explicit.get_conn.
  unfold bind at 1. cbn [fst]. rewrite Hc. unfold io at 1. cbn [fst snd].
  rewrite Hw.
  unfold bind at 1, pure at 1. rewrite (make_bytes_Panic _ Hbad).
  reflexivity.
Qed.

(** The length computed in [int64] is negative for [numPoints] from
    [-2^62] to [-12]. *)
Lemma negative_points_negative_length (numPoints : Z) :
  - 2 ^ 62 <= numPoints <= -12 ->
  add64 22 (mul64 2 numPoints) = 22 + 2 * numPoints /\
  22 + 2 * numPoints < 0.
Proof.
  intros H. unfold add64, mul64.
  rewrite (wrap64_id (2 * numPoints)).
  - split; [|lia]. apply wrap64_id.
    unfold is_int64, int64_min, int64_max. lia.
  - unfold is_int64, int64_min, int64_max. lia.
Qed.

(** X14.  When the length [22 + 2*numPoints], computed in [int64], is negative
    (as for every [numPoints] from [-2^62] to [-12]) or above the allocator
    limit, [Read] and [BitRead] panic in [make], and they do so after the
    request was written: the client is as it was when the request was
    written and the answer is never read.  This holds for the persistent
    client, whatever connection its acquisition handed out, and for the
    explicit client in any world. *)
Theorem Read_negative_length_panics_after_write :
  forall net (d : string) (o numPoints : Z),
    add64 22 (mul64 2 numPoints) < 0 \/
    maxAlloc < add64 22 (mul64 2 numPoints) ->
    (forall h (c c1 : Persistent.client3EAlive) w0 w1 payload n w2,
        Persistent.getConnection net (c, w0) = (Val (OK h), (c1, w1)) ->
        DecodeString (BuildReadRequest (Persistent.stn c) d o numPoints)
          = (payload, None) ->
        conn_Write net h payload w1 = (OK n, w2) ->
        Persistent.Read net d o numPoints (c, w0) =
          (Panic MakeSliceLen, (c1, log (EvWrite h payload) w1))) /\
    (forall h (c c1 : Persistent.client3EAlive) w0 w1 payload n w2,
        Persistent.getConnection net (c, w0) = (Val (OK h), (c1, w1)) ->
        DecodeString (BuildBitReadRequest (Persistent.stn c) d o numPoints)
          = (payload, None) ->
        conn_Write net h payload w1 = (OK n, w2) ->
        Persistent.BitRead net d o numPoints (c, w0) =
          (Panic MakeSliceLen, (c1, log (EvWrite h payload) w1))) /\
    (forall h (c : Explicit.client3EAlive) w payload n w2,
        Explicit.conn c = Some h ->
        DecodeString (BuildReadRequest (Explicit.stn c) d o numPoints)
          = (payload, None) ->
        conn_Write net h payload w = (OK n, w2) ->
        Explicit.Read net d o numPoints (c, w) =
          (Panic MakeSliceLen, (c, log (EvWrite h payload) w))) /\
    (forall h (c : Explicit.client3EAlive) w payload n w2,
        Explicit.conn c = Some h ->
        DecodeString (BuildBitReadRequest (Explicit.stn c) d o numPoints)
          = (payload, None) ->
        conn_Write net h payload w = (OK n, w2) ->
        Explicit.BitRead net d o numPoints (c, w) =
          (Panic MakeSliceLen, (c, log (EvWrite h payload) w))).
Proof.
  intros net d o numPoints Hbad.
  split; [|split; [|split]].
  - intros h c c1 w0 w1 payload n w2 Hacq Hdec Hw.
    pose proof (conn_Write_world _ _ _ _ _ _ Hw) as Hw2. rewrite <- Hw2.
    rewrite Persistent_Read_exchange.
    now apply (Persistent_exchange_bad_length _ _ _ _ _ payload h c1 w1 n).
  - intros h c c1 w0 w1 payload n w2 Hacq Hdec Hw.
    pose proof (conn_Write_world _ _ _ _ _ _ Hw) as Hw2. rewrite <- Hw2.
    rewrite Persistent_BitRead_exchange.
    now apply (Persistent_exchange_bad_length _ _ _ _ _ payload h c1 w1 n).
  - intros h c w payload n w2 Hc Hdec Hw.
    pose proof (conn_Write_world _ _ _ _ _ _ Hw) as Hw2. rewrite <- Hw2.
    rewrite Explicit_Read_exchange.
    now apply (Explicit_exchange_bad_length _ _ _ _ _ payload h n).
  - intros h c w payload n w2 Hc Hdec Hw.
    pose proof (conn_Write_world _ _ _ _ _ _ Hw) as Hw2. rewrite <- Hw2.
    rewrite Explicit_BitRead_exchange.
    now apply (Explicit_exchange_bad_length _ _ _ _ _ payload h n).
Qed.

Lemma Read_negative_length_panics_after_write_witness :
  Persistent.Read (calm_net ten_points_answer) "D100" 0 (-12)
      (stored0 good_station, one_open) =
    (Panic MakeSliceLen,
     (stored0 good_station,
      MkWorld [EvWrite 0%nat [x50; x00]; EvWrite 0%nat []; EvDial plc]
        1 [])) /\
  Explicit.Read (calm_net ten_points_answer) "D100" 0 (-12)
      (connected0 good_station, second_call_world) =
    (Panic MakeSliceLen,
     (connected0 good_station,
      log (EvWrite 0%nat [x50; x00]) second_call_world)).
Proof.
  destruct (Read_negative_length_panics_after_write
              (calm_net ten_points_answer) "D100" 0 (-12))
    as (HP & _ & HE & _); [left; reflexivity|].
  split.
  - exact (HP 0%nat (stored0 good_station) (stored0 good_station) one_open
              (log (EvWrite 0%nat []) one_open) [x50; x00] 2%nat _
              eq_refl eq_refl eq_refl).
  - exact (HE 0%nat (connected0 good_station) second_call_world
              [x50; x00] 2%nat _ eq_refl eq_refl eq_refl).
Defined.
